(** * Veritas Health Agent: the claim-submission client

    A shallow embedding of the React component [App] of the front end, in
    its three revisions:

    - [src/frontend/src/App.jsx]: the basic controller with the plain
      result panel (module [Basic], panel [Basic.verdict_color]);
    - [src/unnamed/part_000]: the same controller with the richer result
      panel (module [Basic], panel [Panel]);
    - [src/unnamed/part_001]: the hardened controller, with an error state
      and a 120 second abort timer (module [Hardened], panel [Panel]).

    [analyzeClaim] is an [async] function: it is embedded in a small monad
    that records the calls it makes (state setters, [fetch], [alert], ...)
    and whose outcomes are "returned", "threw" and "still awaiting". *)

From Stdlib Require Import String Ascii List Bool NArith QArith Lia.
From Stdlib Require Import DecimalString.
Import ListNotations.

Set Warnings "-register-all".

Local Open Scope string_scope.
Local Open Scope list_scope.

(** ** JavaScript values *)

(** The values [JSON.parse] produces and [JSON.stringify] consumes. The
    members of an object are kept in source order. *)
Inductive json : Type :=
| JNull
| JBool (b : bool)
| JNum (q : Q)
| JStr (s : string)
| JArr (items : list json)
| JObj (members : list (string * json)).

(** A thrown value: every error the component meets is an object with a
    [name] and a [message]. *)
Record js_error : Type := mkError {
  name : string;
  message : string
}.

(** [new Error(msg)] *)
Definition new_Error (msg : string) : js_error :=
  {| name := "Error"; message := msg |}.

(** [!s] is [false] exactly for a non-empty string. *)
Definition truthy_string (s : string) : bool :=
  match s with
  | EmptyString => false
  | String _ _ => true
  end.

(** Truthiness of a state cell that holds [null] or a string. *)
Definition truthy_nullable (o : option string) : bool :=
  match o with
  | None => false
  | Some s => truthy_string s
  end.

(** A [null]-or-string cell as a value. *)
Definition json_of_nullable (o : option string) : json :=
  match o with
  | None => JNull
  | Some s => JStr s
  end.

(** Property read [o.key]; when the text of an object repeated a key,
    [JSON.parse] kept the last member. *)
Fixpoint get_member (key : string) (members : list (string * json)) : option json :=
  match members with
  | [] => None
  | (k, v) :: rest =>
      match get_member key rest with
      | Some later => Some later
      | None => if String.eqb k key then Some v else None
      end
  end.

(** ** Strings *)

(** Strings are sequences of bytes (UTF-8). The literals the component
    searches for are ASCII, so a search over bytes finds what a search
    over UTF-16 code units finds. *)

(** [s.startsWith(prefix)] *)
Fixpoint startsWith (s prefix : string) : bool :=
  match prefix, s with
  | EmptyString, _ => true
  | String p prefix', String c s' => Ascii.eqb c p && startsWith s' prefix'
  | String _ _, EmptyString => false
  end.

(** [s.includes(search)]: [search] occurs in [s] at some position. *)
Fixpoint includes (s search : string) : bool :=
  startsWith s search
  || match s with
     | EmptyString => false
     | String _ s' => includes s' search
     end.

(** Template-literal rendering of a non-negative integer. *)
Definition string_of_N (n : N) : string :=
  NilEmpty.string_of_uint (N.to_uint n).

(** A string made of white space only (space, tab, line feed, carriage
    return, vertical tab, form feed). *)
Definition is_space (c : ascii) : bool :=
  let n := nat_of_ascii c in
  Nat.eqb n 32 || (Nat.leb 9 n && Nat.leb n 13).

Fixpoint whitespace_only (s : string) : bool :=
  match s with
  | EmptyString => true
  | String c s' => is_space c && whitespace_only s'
  end.

(** ** The result panel *)

Definition color_success : string := "var(--color-success)".
Definition color_danger : string := "var(--color-danger)".
Definition color_warning : string := "var(--color-warning)".

(** [result.verdict] for a result of the shape the client expects: an
    object whose [verdict] is a string. [None] stands for every other
    value, which this development does not render. *)
Definition verdict_of (result : json) : option string :=
  match result with
  | JObj members =>
      match get_member "verdict" members with
      | Some (JStr v) => Some v
      | _ => None
      end
  | _ => None
  end.

(** The panel of part_000 (lines 107-108, 121-122) and of part_001
    (lines 112-113, 126-127): border colour and icon. *)
Module Panel.

Definition verdict_color (verdict : string) : string :=
  if includes verdict "True" then color_success
  else if includes verdict "False" || includes verdict "Misleading" then color_danger
  else color_warning.

Definition verdict_icon (verdict : string) : string :=
  if includes verdict "True" then "✅"
  else if includes verdict "False" || includes verdict "Misleading" then "⚠️"
  else "❓".

Definition panel_color (result : json) : option string :=
  option_map verdict_color (verdict_of result).

End Panel.

(** ** Calls, promises and the monad of an [async] function *)

(** The second argument of [fetch]. [body] is the value handed to
    [JSON.stringify]; [signal] tells whether an abort signal is attached. *)
Record request : Type := mkRequest {
  url : string;
  method : string;
  headers : list (string * string);
  body : json;
  signal : bool
}.

(** What a promise does, with the time of its settlement in milliseconds
    after the call of [analyzeClaim]. *)
Inductive promise (A : Type) : Type :=
| Fulfils (at_ms : N) (a : A)
| Rejects (at_ms : N) (e : js_error)
| NeverSettles.

Arguments Fulfils {A} at_ms a.
Arguments Rejects {A} at_ms e.
Arguments NeverSettles {A}.

(** A [Response]: its status and what [response.json()] does. *)
Record response : Type := mkResponse {
  status : N;
  json_body : promise json
}.

(** [response.ok]: the status is in the range 200-299. *)
Definition ok (r : response) : bool :=
  (200 <=? status r)%N && (status r <=? 299)%N.

(** The environment of one submission: what the network does with the
    request, and the message the browser gives its abort exception. *)
Record browser : Type := mkBrowser {
  network : request -> promise response;
  abort_message : string
}.

(** The exception a fetch rejects with once its signal is aborted. *)
Definition AbortError (w : browser) : js_error :=
  {| name := "AbortError"; message := abort_message w |}.

(** A promise whose signal is aborted at [deadline] unless it settled
    before; the abort is taken to win when both fall in the same
    millisecond. *)
Definition abortable {A : Type} (w : browser) (deadline : N) (p : promise A) : promise A :=
  match p with
  | Fulfils t _ | Rejects t _ =>
      if (t <? deadline)%N then p else Rejects deadline (AbortError w)
  | NeverSettles => Rejects deadline (AbortError w)
  end.

(** The calls the component makes, in the order it makes them. *)
Inductive call : Type :=
| SetLoading (b : bool)
| SetResult (v : json)
| SetError (e : option string)
| NewAbortController
| SetTimeout (ms : N)
| ClearTimeout
| Fetch (rq : request)
| ConsoleError (label : string) (e : js_error)
| Alert (msg : string).

(** How far an [async] function got: it returned, it threw, or it is
    suspended at an [await] whose promise never settles. *)
Inductive outcome (A : Type) : Type :=
| Returned (a : A)
| Threw (e : js_error)
| Awaiting.

Arguments Returned {A} a.
Arguments Threw {A} e.
Arguments Awaiting {A}.

Definition M (A : Type) : Type := (outcome A * list call)%type.

Definition ret {A : Type} (a : A) : M A := (Returned a, []).

Definition throw {A : Type} (e : js_error) : M A := (Threw e, []).

Definition bind {A B : Type} (m : M A) (k : A -> M B) : M B :=
  match m with
  | (Returned a, cs) => let (o, ks) := k a in (o, cs ++ ks)
  | (Threw e, cs) => (Threw e, cs)
  | (Awaiting, cs) => (Awaiting, cs)
  end.

Declare Scope async_scope.
Delimit Scope async_scope with async.
Notation "x <- m ;; k" := (bind m (fun x => k))
  (at level 61, m at next level, right associativity) : async_scope.
Notation "m ;; k" := (bind m (fun _ => k))
  (at level 61, right associativity) : async_scope.

Definition emit (c : call) : M unit := (Returned tt, [c]).

(** [await p] *)
Definition await {A : Type} (p : promise A) : M A :=
  match p with
  | Fulfils _ a => (Returned a, [])
  | Rejects _ e => (Threw e, [])
  | NeverSettles => (Awaiting, [])
  end.

(** [try { body } catch (e) { handler }] *)
Definition try_catch {A : Type} (body : M A) (handler : js_error -> M A) : M A :=
  match body with
  | (Threw e, cs) => let (o, hs) := handler e in (o, cs ++ hs)
  | _ => body
  end.

(** [try { body } finally { final }]: [final] runs when [body] completes,
    normally or not, and not while [body] is suspended. *)
Definition try_finally {A : Type} (body : M A) (final : M unit) : M A :=
  match body with
  | (Awaiting, cs) => (Awaiting, cs)
  | (o, cs) =>
      match final with
      | (Returned _, fs) => (o, cs ++ fs)
      | (Threw e, fs) => (Threw e, cs ++ fs)
      | (Awaiting, fs) => (Awaiting, cs ++ fs)
      end
  end.

Definition calls {A : Type} (m : M A) : list call := snd m.

Definition is_alert (c : call) : bool :=
  match c with
  | Alert _ => true
  | _ => false
  end.

(** The requests dispatched by a run. *)
Definition requests (cs : list call) : list request :=
  flat_map (fun c => match c with Fetch rq => [rq] | _ => [] end) cs.

Definition endpoint : string := "http://localhost:8000/analyze".

Local Open Scope async_scope.

(** ** The basic controller (App.jsx and part_000, lines 5-33) *)

Module Basic.

(** The four [useState] cells. *)
Record state : Type := mkState {
  claim : string;
  imageBase64 : option string;
  result : json;
  loading : bool
}.

(** The state of the first render. *)
Definition initial : state :=
  {| claim := ""; imageBase64 := None; result := JNull; loading := false |}.

(** The effect of one call on the cells. *)
Definition reduce (s : state) (c : call) : state :=
  match c with
  | SetLoading b =>
      {| claim := claim s; imageBase64 := imageBase64 s; result := result s; loading := b |}
  | SetResult v =>
      {| claim := claim s; imageBase64 := imageBase64 s; result := v; loading := loading s |}
  | _ => s
  end.

(** The state once the calls of a run have been applied. *)
Definition after (s : state) (cs : list call) : state := fold_left reduce cs s.

(** [if (!claim && !imageBase64) return] *)
Definition refuses (s : state) : bool :=
  negb (truthy_string (claim s)) && negb (truthy_nullable (imageBase64 s)).

Definition payload (s : state) : json :=
  JObj [("text", JStr (claim s)); ("image_base64", json_of_nullable (imageBase64 s))].

Definition request_of (s : state) : request :=
  {| url := endpoint;
     method := "POST";
     headers := [("Content-Type", "application/json")];
     body := payload s;
     signal := false |}.

Definition fetch (w : browser) (rq : request) : M response :=
  emit (Fetch rq) ;; await (network w rq).

Definition alert_text : string :=
  "Failed to analyze claim. Make sure the backend is running.".

(** [analyzeClaim], run in the render whose cells are [s]. *)
Definition analyzeClaim (s : state) (w : browser) : M unit :=
  if refuses s then ret tt
  else
    emit (SetLoading true) ;;
    emit (SetResult JNull) ;;
    try_finally
      (try_catch
         (response <- fetch w (request_of s) ;;
          data <- await (json_body response) ;;
          emit (SetResult data))
         (fun error =>
            emit (ConsoleError "Error analyzing claim:" error) ;;
            emit (Alert alert_text)))
      (emit (SetLoading false)).

(** The text area's [onChange]. *)
Definition onChange (s : state) (value : string) : state :=
  {| claim := value; imageBase64 := imageBase64 s; result := result s; loading := loading s |}.

(** The file reader's [onloadend], with [reader.result]. *)
Definition onloadend (s : state) (reader_result : option string) : state :=
  {| claim := if negb (truthy_string (claim s)) then "Image uploaded" else claim s;
     imageBase64 := reader_result;
     result := result s;
     loading := loading s |}.

(** The verdict colour of App.jsx (lines 92-93). *)
Definition verdict_color (verdict : string) : string :=
  if includes verdict "True" then color_success
  else if includes verdict "False" then color_danger
  else color_warning.

Definition panel_color (result : json) : option string :=
  option_map verdict_color (verdict_of result).

End Basic.

(** ** The hardened controller (part_001, lines 5-52) *)

Module Hardened.

(** The five [useState] cells; [imageBase64] is declared and never set. *)
Record state : Type := mkState {
  claim : string;
  imageBase64 : option string;
  result : json;
  loading : bool;
  error : option string
}.

Definition initial : state :=
  {| claim := ""; imageBase64 := None; result := JNull; loading := false; error := None |}.

Definition reduce (s : state) (c : call) : state :=
  match c with
  | SetLoading b =>
      {| claim := claim s; imageBase64 := imageBase64 s; result := result s;
         loading := b; error := error s |}
  | SetResult v =>
      {| claim := claim s; imageBase64 := imageBase64 s; result := v;
         loading := loading s; error := error s |}
  | SetError e =>
      {| claim := claim s; imageBase64 := imageBase64 s; result := result s;
         loading := loading s; error := e |}
  | _ => s
  end.

Definition after (s : state) (cs : list call) : state := fold_left reduce cs s.


(** [if (!claim) return] *)
Definition refuses (s : state) : bool := negb (truthy_string (claim s)).

Definition payload (s : state) : json :=
  JObj [("text", JStr (claim s)); ("image_base64", JNull)].

Definition request_of (s : state) : request :=
  {| url := endpoint;
     method := "POST";
     headers := [("Content-Type", "application/json")];
     body := payload s;
     signal := true |}.

Definition timeout_ms : N := 120000.

(** [fetch] with the controller's signal, which the timer aborts. *)
Definition fetch (w : browser) (rq : request) : M response :=
  emit (Fetch rq) ;; await (abortable w timeout_ms (network w rq)).

Definition timeout_text : string :=
  "Request timed out. The server took too long to respond.".

Definition connect_text : string :=
  "Failed to connect to the server. Please ensure the backend is running.".

Definition analyzeClaim (s : state) (w : browser) : M unit :=
  if refuses s then ret tt
  else
    emit (SetLoading true) ;;
    emit (SetResult JNull) ;;
    emit (SetError None) ;;
    try_finally
      (try_catch
         (emit NewAbortController ;;
          emit (SetTimeout timeout_ms) ;;
          response <- fetch w (request_of s) ;;
          emit ClearTimeout ;;
          (if negb (ok response)
           then throw (new_Error ("Server error: " ++ string_of_N (status response)))
           else ret tt) ;;
          data <- await (json_body response) ;;
          emit (SetResult data))
         (fun error =>
            emit (ConsoleError "Error analyzing claim:" error) ;;
            if String.eqb (name error) "AbortError"
            then emit (SetError (Some timeout_text))
            else emit (SetError (Some connect_text))))
      (emit (SetLoading false)).

Definition onChange (s : state) (value : string) : state :=
  {| claim := value; imageBase64 := imageBase64 s; result := result s;
     loading := loading s; error := error s |}.



End Hardened.

(** ** Observations on runs, and sample environments *)

(** A promise that settles at all. *)
Definition settles {A : Type} (p : promise A) : bool :=
  match p with
  | NeverSettles => false
  | _ => true
  end.

(** Whenever the network answers the request, reading the body settles. *)
Definition body_settles (w : browser) (rq : request) : bool :=
  match network w rq with
  | Fulfils _ r => settles (json_body r)
  | _ => true
  end.

(** The abort timer of the hardened controller fires before the network
    settles the request. *)
Definition timed_out (w : browser) (rq : request) : bool :=
  match network w rq with
  | Fulfils t _ | Rejects t _ => (Hardened.timeout_ms <=? t)%N
  | NeverSettles => true
  end.

Definition is_set_loading (c : call) : bool :=
  match c with
  | SetLoading _ => true
  | _ => false
  end.

(** The values a run hands to [setResult] and to [setError]. *)
Definition result_sets (cs : list call) : list json :=
  flat_map (fun c => match c with SetResult v => [v] | _ => [] end) cs.

Definition error_sets (cs : list call) : list (option string) :=
  flat_map (fun c => match c with SetError e => [e] | _ => [] end) cs.

(** The text the [catch] block of the hardened controller stores for a
    caught [e] (part_001, lines 44-48). *)
Definition hardened_error_text (e : js_error) : string :=
  if String.eqb (name e) "AbortError" then Hardened.timeout_text else Hardened.connect_text.

(** The calls of the hardened run between [setLoading(true)] and the
    settlement of the fetch. *)
Definition hardened_mid (s : Hardened.state) : list call :=
  [SetResult JNull; SetError None; NewAbortController;
   SetTimeout Hardened.timeout_ms; Fetch (Hardened.request_of s)].

(** A server that answers every request after [t] ms with [status] and a
    body that parses to [data]. *)
Definition server_answers (t : N) (status : N) (data : json) : browser :=
  {| network := fun _ => Fulfils t {| status := status; json_body := Fulfils (t + 1) data |};
     abort_message := "The operation was aborted." |}.

(** No server listens: the connection is refused. *)
Definition server_unreachable : browser :=
  {| network := fun _ => Rejects 3 {| name := "TypeError"; message := "Failed to fetch" |};
     abort_message := "The operation was aborted." |}.

(** The server never answers. *)
Definition server_silent : browser :=
  {| network := fun _ => NeverSettles;
     abort_message := "The operation was aborted." |}.

(** The result of scenario 1 (confidence 0.95). *)
Definition lemon_water_result : json :=
  JObj [("verdict", JStr "False");
        ("confidence", JNum (95 # 100));
        ("explanation", JStr "No evidence...");
        ("sources", JArr [JStr "WHO"])].

Definition lemon_water : string := "Drinking lemon water cures cancer".

Definition basic_typed (text : string) : Basic.state := Basic.onChange Basic.initial text.

Definition hardened_typed (text : string) : Hardened.state :=
  Hardened.onChange Hardened.initial text.

(** The claim as the specification words it: each literal selects its own
    class, the literals tried in the order given. *)
Definition classifies_by_literal (color_of : string -> string) : Prop :=
  forall verdict,
    (includes verdict "True" = true -> color_of verdict = color_success) /\
    (includes verdict "True" = false -> includes verdict "False" = true ->
     color_of verdict = color_danger) /\
    (includes verdict "True" = false -> includes verdict "False" = false ->
     includes verdict "Misleading" = true -> color_of verdict = color_warning).

(** ** The rest of the component: what is rendered, and the file input *)

(** Truthiness of a parsed value: [null], [false], zero and the empty
    string are falsy; arrays and objects are truthy. *)
Definition truthy (v : json) : bool :=
  match v with
  | JNull => false
  | JBool b => b
  | JNum q => negb (Qeq_bool q (0 # 1))
  | JStr s => truthy_string s
  | JArr _ | JObj _ => true
  end.

(** [result.verdict] on a truthy [result]; [None] is [undefined]. Only an
    object can have the member. *)
Definition read_verdict (result : json) : option json :=
  match result with
  | JObj members => get_member "verdict" members
  | _ => None
  end.

(** The call [v.includes(search)] on what [result.verdict] gave. A string
    looks for a substring, an array for an element equal to [search];
    nothing else has a method [includes], and the call throws a
    TypeError, which is [None]. *)
Definition call_includes (v : option json) (search : string) : option bool :=
  match v with
  | Some (JStr s) => Some (includes s search)
  | Some (JArr items) =>
      Some (existsb (fun item => match item with
                                 | JStr s => String.eqb s search
                                 | _ => false
                                 end) items)
  | _ => None
  end.

(** What the slot [{result && (...)}] comes to, as far as the first
    expression of the panel goes. *)
Inductive card : Type :=
| NoCard                      (* [result] is falsy: no panel *)
| Border (color : string)     (* the colour expression has this value *)
| RenderThrows.               (* the colour expression throws a TypeError *)

(** App.jsx, lines 86-93. *)
Definition basic_card (result : json) : card :=
  if truthy result then
    match call_includes (read_verdict result) "True" with
    | None => RenderThrows
    | Some true => Border color_success
    | Some false =>
        match call_includes (read_verdict result) "False" with
        | None => RenderThrows
        | Some true => Border color_danger
        | Some false => Border color_warning
        end
    end
  else NoCard.

(** part_000, lines 105-108, and part_001, lines 110-113. *)
Definition panel_card (result : json) : card :=
  if truthy result then
    match call_includes (read_verdict result) "True" with
    | None => RenderThrows
    | Some true => Border color_success
    | Some false =>
        match call_includes (read_verdict result) "False" with
        | None => RenderThrows
        | Some true => Border color_danger
        | Some false =>
            match call_includes (read_verdict result) "Misleading" with
            | None => RenderThrows
            | Some true => Border color_danger
            | Some false => Border color_warning
            end
        end
    end
  else NoCard.

(** The slot [{error && (...)}] of part_001 (lines 103-108): the text
    shown in the error panel, if the panel is shown. *)
Definition error_panel (s : Hardened.state) : option string :=
  if truthy_nullable (Hardened.error s) then Hardened.error s else None.

(** The submit button: [disabled={loading}] and its label. *)
Definition button_disabled (loading : bool) : bool := loading.

Definition button_label (loading : bool) : string :=
  if loading then "Analyzing..." else "Verify Claim".

(** The reader's [onloadend] handler, created in the render whose cells
    are [render] and run when the cells are [now]: the test [!claim]
    reads the claim of [render]. *)
Definition onloadend_in (render now : Basic.state) (reader_result : option string)
  : Basic.state :=
  {| Basic.claim := if negb (truthy_string (Basic.claim render))
                    then "Image uploaded" else Basic.claim now;
     Basic.imageBase64 := reader_result;
     Basic.result := Basic.result now;
     Basic.loading := Basic.loading now |}.

(** The file input's [onChange] (App.jsx, lines 61-71) with the chosen
    [files], followed by the end of the read it starts; [read] is what
    the reader makes of a file ([null] when it fails). *)
Definition onFileChange {File : Type} (render now : Basic.state)
  (files : list File) (read : File -> option string) : Basic.state :=
  match files with
  | [] => now
  | file :: _ => onloadend_in render now (read file)
  end.

(** The request of the basic controller for a text and an image cell. *)
Definition upload_request (text : string) (image : option string) : request :=
  {| url := "http://localhost:8000/analyze";
     method := "POST";
     headers := [("Content-Type", "application/json")];
     body := JObj [("text", JStr text); ("image_base64", json_of_nullable image)];
     signal := false |}.

Definition is_clear_timeout (c : call) : bool :=
  match c with
  | ClearTimeout => true
  | _ => false
  end.

Definition is_console_error (c : call) : bool :=
  match c with
  | ConsoleError _ _ => true
  | _ => false
  end.

(** A server that answers after [t] ms with [status] and a body whose
    reading never ends. *)
Definition server_stalls_body (t : N) (status : N) : browser :=
  {| network := fun _ => Fulfils t {| status := status; json_body := NeverSettles |};
     abort_message := "The operation was aborted." |}.

(** A server that answers after [t] ms with [status] and a body that is
    not JSON. *)
Definition server_answers_garbage (t : N) (status : N) : browser :=
  {| network := fun _ =>
       Fulfils t {| status := status;
                    json_body := Rejects (t + 1)
                                   {| name := "SyntaxError";
                                      message := "Unexpected token < in JSON at position 0" |} |};
     abort_message := "The operation was aborted." |}.

(** * Properties *)

(** ** Strings and guards *)

Lemma truthy_string_false (s : string) : truthy_string s = false <-> s = "".
Proof.
  destruct s; simpl; split; intro H; try reflexivity; discriminate H.
Qed.

Lemma truthy_string_true (s : string) : truthy_string s = true <-> s <> "".
Proof.
  destruct s; simpl; split; intro H; try reflexivity; try discriminate.
  now elim H.
Qed.

Lemma basic_refuses_iff (s : Basic.state) :
  Basic.refuses s = true <->
  Basic.claim s = "" /\ truthy_nullable (Basic.imageBase64 s) = false.
Proof.
  unfold Basic.refuses.
  rewrite andb_true_iff, !negb_true_iff, truthy_string_false.
  reflexivity.
Qed.

Lemma hardened_refuses_iff (s : Hardened.state) :
  Hardened.refuses s = true <-> Hardened.claim s = "".
Proof.
  unfold Hardened.refuses.
  rewrite negb_true_iff. apply truthy_string_false.
Qed.

(** ** The runs of [analyzeClaim], case by case *)

(** The run of the basic controller once the guard is passed: one case per
    behaviour of the two awaited promises. *)
Lemma basic_run (s : Basic.state) (w : browser) :
  Basic.refuses s = false ->
  Basic.analyzeClaim s w =
  let rq := Basic.request_of s in
  let start := [SetLoading true; SetResult JNull; Fetch rq] in
  let failed e :=
    (Returned tt,
     start ++ [ConsoleError "Error analyzing claim:" e; Alert Basic.alert_text;
               SetLoading false]) in
  match network w rq with
  | Fulfils _ r =>
      match json_body r with
      | Fulfils _ data => (Returned tt, start ++ [SetResult data; SetLoading false])
      | Rejects _ e => failed e
      | NeverSettles => (Awaiting, start)
      end
  | Rejects _ e => failed e
  | NeverSettles => (Awaiting, start)
  end.
Proof.
  intro Hguard. unfold Basic.analyzeClaim, Basic.fetch. rewrite Hguard.
  destruct (network w (Basic.request_of s)) as [t r | t e | ]; cbn.
  - destruct (json_body r) as [t' data | t' e | ]; reflexivity.
  - reflexivity.
  - reflexivity.
Qed.

Lemma hardened_run (s : Hardened.state) (w : browser) :
  Hardened.refuses s = false ->
  Hardened.analyzeClaim s w =
  let rq := Hardened.request_of s in
  let start :=
    [SetLoading true; SetResult JNull; SetError None; NewAbortController;
     SetTimeout Hardened.timeout_ms; Fetch rq] in
  let failed cs e :=
    (Returned tt,
     cs ++ [ConsoleError "Error analyzing claim:" e;
            SetError (Some (hardened_error_text e)); SetLoading false]) in
  match abortable w Hardened.timeout_ms (network w rq) with
  | Fulfils _ r =>
      if ok r then
        match json_body r with
        | Fulfils _ data =>
            (Returned tt, start ++ [ClearTimeout; SetResult data; SetLoading false])
        | Rejects _ e => failed (start ++ [ClearTimeout]) e
        | NeverSettles => (Awaiting, start ++ [ClearTimeout])
        end
      else
        failed (start ++ [ClearTimeout])
               (new_Error ("Server error: " ++ string_of_N (status r)))
  | Rejects _ e => failed start e
  | NeverSettles => (Awaiting, start)
  end.
Proof.
  intro Hguard. unfold Hardened.analyzeClaim, Hardened.fetch. rewrite Hguard.
  destruct (abortable w Hardened.timeout_ms (network w (Hardened.request_of s)))
    as [t r | t e | ]; cbn.
  - destruct (ok r); cbn.
    + destruct (json_body r) as [t' data | t' e | ]; cbn; try reflexivity.
      unfold hardened_error_text. destruct (String.eqb (name e) "AbortError"); reflexivity.
    + reflexivity.
  - unfold hardened_error_text. destruct (String.eqb (name e) "AbortError"); reflexivity.
  - reflexivity.
Qed.

Lemma basic_calls_nonempty (s : Basic.state) (w : browser) :
  Basic.refuses s = false -> calls (Basic.analyzeClaim s w) <> [].
Proof.
  intro Hguard. rewrite (basic_run s w Hguard). cbv zeta.
  destruct (network w (Basic.request_of s)) as [t r | t e | ];
    [destruct (json_body r) | | ]; discriminate.
Qed.

Lemma hardened_calls_nonempty (s : Hardened.state) (w : browser) :
  Hardened.refuses s = false -> calls (Hardened.analyzeClaim s w) <> [].
Proof.
  intro Hguard. rewrite (hardened_run s w Hguard). cbv zeta.
  destruct (abortable w Hardened.timeout_ms (network w (Hardened.request_of s)))
    as [t r | t e | ];
    [destruct (ok r); [destruct (json_body r) | ] | | ]; discriminate.
Qed.

(** ** The input guard *)

(** C2. With an empty claim and no image, [analyzeClaim] returns at once
    in both controllers: it makes no call at all (no request, no setter,
    no alert), so the state is left as it was. The basic controller makes
    no call exactly when the claim is empty and the image cell is unset
    (falsy); the hardened one exactly when the claim is empty. *)
Theorem analyze_empty_input_is_noop :
  (forall (s : Basic.state) (w : browser),
      Basic.claim s = "" -> Basic.imageBase64 s = None ->
      Basic.analyzeClaim s w = (Returned tt, []) /\
      Basic.after s (calls (Basic.analyzeClaim s w)) = s) /\
  (forall (s : Hardened.state) (w : browser),
      Hardened.claim s = "" -> Hardened.imageBase64 s = None ->
      Hardened.analyzeClaim s w = (Returned tt, []) /\
      Hardened.after s (calls (Hardened.analyzeClaim s w)) = s) /\
  (forall (s : Basic.state) (w : browser),
      calls (Basic.analyzeClaim s w) = [] <->
      Basic.claim s = "" /\ truthy_nullable (Basic.imageBase64 s) = false) /\
  (forall (s : Hardened.state) (w : browser),
      calls (Hardened.analyzeClaim s w) = [] <-> Hardened.claim s = "").
Proof.
  split; [ | split; [ | split ] ].
  - intros s w Hclaim Himage.
    unfold Basic.analyzeClaim, Basic.refuses. rewrite Hclaim, Himage.
    split; reflexivity.
  - intros s w Hclaim _.
    unfold Hardened.analyzeClaim, Hardened.refuses. rewrite Hclaim.
    split; reflexivity.
  - intros s w. destruct (Basic.refuses s) eqn:Hguard.
    + unfold Basic.analyzeClaim. rewrite Hguard.
      apply basic_refuses_iff in Hguard. simpl. tauto.
    + split.
      * intro Hnone. now apply basic_calls_nonempty in Hnone.
      * intro Hboth. apply basic_refuses_iff in Hboth. congruence.
  - intros s w. destruct (Hardened.refuses s) eqn:Hguard.
    + unfold Hardened.analyzeClaim. rewrite Hguard.
      apply hardened_refuses_iff in Hguard. simpl. tauto.
    + split.
      * intro Hnone. now apply hardened_calls_nonempty in Hnone.
      * intro Hclaim. apply hardened_refuses_iff in Hclaim. congruence.
Qed.

Lemma analyze_empty_input_is_noop_witness :
  Basic.analyzeClaim Basic.initial server_unreachable = (Returned tt, []) /\
  Basic.after Basic.initial (calls (Basic.analyzeClaim Basic.initial server_unreachable))
  = Basic.initial.
Proof.
  apply (proj1 analyze_empty_input_is_noop Basic.initial server_unreachable);
    reflexivity.
Defined.

Lemma basic_requests (s : Basic.state) (w : browser) :
  Basic.refuses s = false ->
  requests (calls (Basic.analyzeClaim s w)) = [Basic.request_of s].
Proof.
  intro Hguard. rewrite (basic_run s w Hguard). cbv zeta.
  destruct (network w (Basic.request_of s)) as [t r | t e | ];
    [destruct (json_body r) | | ]; reflexivity.
Qed.

Lemma hardened_requests (s : Hardened.state) (w : browser) :
  Hardened.refuses s = false ->
  requests (calls (Hardened.analyzeClaim s w)) = [Hardened.request_of s].
Proof.
  intro Hguard. rewrite (hardened_run s w Hguard). cbv zeta.
  destruct (abortable w Hardened.timeout_ms (network w (Hardened.request_of s)))
    as [t r | t e | ];
    [destruct (ok r); [destruct (json_body r) | ] | | ]; reflexivity.
Qed.

Lemma basic_passes_with_text (s : Basic.state) :
  Basic.claim s <> "" -> Basic.refuses s = false.
Proof.
  intro Hclaim. unfold Basic.refuses.
  apply truthy_string_true in Hclaim. now rewrite Hclaim.
Qed.

Lemma hardened_passes_with_text (s : Hardened.state) :
  Hardened.claim s <> "" -> Hardened.refuses s = false.
Proof.
  intro Hclaim. unfold Hardened.refuses.
  apply truthy_string_true in Hclaim. now rewrite Hclaim.
Qed.

(** C10. The guard tests the claim against the empty string only: a run
    of the hardened controller dispatches no request exactly when the
    claim is empty, and a run of the basic one dispatches none only if it
    is. So a claim that is not empty and made of white space alone passes
    the guard: the hardened controller dispatches one request carrying
    that text, and so does the basic controller, whatever the image cell
    holds. *)
Theorem whitespace_claim_is_dispatched :
  (forall (s : Hardened.state) (w : browser),
      requests (calls (Hardened.analyzeClaim s w)) = [] <-> Hardened.claim s = "") /\
  (forall (s : Basic.state) (w : browser),
      requests (calls (Basic.analyzeClaim s w)) = [] -> Basic.claim s = "") /\
  (forall text : string,
      text <> "" -> whitespace_only text = true ->
      (forall (s : Hardened.state) (w : browser),
          Hardened.claim s = text ->
          requests (calls (Hardened.analyzeClaim s w)) = [Hardened.request_of s] /\
          body (Hardened.request_of s) =
          JObj [("text", JStr text); ("image_base64", JNull)]) /\
      (forall (s : Basic.state) (w : browser),
          Basic.claim s = text ->
          requests (calls (Basic.analyzeClaim s w)) = [Basic.request_of s] /\
          body (Basic.request_of s) =
          JObj [("text", JStr text);
                ("image_base64", json_of_nullable (Basic.imageBase64 s))])).
Proof.
  split; [ | split ].
  - intros s w. destruct (Hardened.refuses s) eqn:Hguard.
    + pose proof (proj1 (hardened_refuses_iff s) Hguard) as Hclaim.
      unfold Hardened.analyzeClaim. rewrite Hguard. simpl. tauto.
    + rewrite (hardened_requests s w Hguard). split; [discriminate | ].
      intro Hclaim. apply hardened_refuses_iff in Hclaim. congruence.
  - intros s w Hnone. destruct (Basic.refuses s) eqn:Hguard.
    + now apply basic_refuses_iff in Hguard.
    + rewrite (basic_requests s w Hguard) in Hnone. discriminate.
  - intros text Hne _. split.
    + intros s w Hclaim. split.
      * apply hardened_requests, hardened_passes_with_text. now rewrite Hclaim.
      * unfold Hardened.request_of, Hardened.payload. simpl. now rewrite Hclaim.
    + intros s w Hclaim. split.
      * apply basic_requests, basic_passes_with_text. now rewrite Hclaim.
      * unfold Basic.request_of, Basic.payload. simpl. now rewrite Hclaim.
Qed.

Lemma whitespace_claim_is_dispatched_witness :
  requests (calls (Hardened.analyzeClaim (hardened_typed "   ") server_unreachable))
  = [Hardened.request_of (hardened_typed "   ")] /\
  requests (calls (Basic.analyzeClaim (basic_typed "   ") server_unreachable))
  = [Basic.request_of (basic_typed "   ")].
Proof.
  assert (Hne : "   " <> "") by discriminate.
  destruct (proj2 (proj2 whitespace_claim_is_dispatched) "   " Hne eq_refl)
    as [Hhard Hbasic].
  split.
  - exact (proj1 (Hhard (hardened_typed "   ") server_unreachable eq_refl)).
  - exact (proj1 (Hbasic (basic_typed "   ") server_unreachable eq_refl)).
Defined.

(** ** The request *)

(** C6. Past the guard, a run dispatches exactly one request, a POST to
    the fixed endpoint with a JSON content type, whose body serialises
    the object with the members [text] and [image_base64], in this order:
    [text] is the claim; [image_base64] is the stored image, or [null]
    when there is none, in the basic controller, and always [null] in the
    hardened one. *)
Theorem request_body_is_text_and_image :
  (forall (s : Basic.state) (w : browser),
      Basic.refuses s = false ->
      requests (calls (Basic.analyzeClaim s w)) =
      [ {| url := "http://localhost:8000/analyze";
           method := "POST";
           headers := [("Content-Type", "application/json")];
           body := JObj [("text", JStr (Basic.claim s));
                         ("image_base64",
                          match Basic.imageBase64 s with
                          | Some encoded => JStr encoded
                          | None => JNull
                          end)];
           signal := false |} ]) /\
  (forall (s : Hardened.state) (w : browser),
      Hardened.refuses s = false ->
      requests (calls (Hardened.analyzeClaim s w)) =
      [ {| url := "http://localhost:8000/analyze";
           method := "POST";
           headers := [("Content-Type", "application/json")];
           body := JObj [("text", JStr (Hardened.claim s)); ("image_base64", JNull)];
           signal := true |} ]).
Proof.
  split.
  - intros s w Hguard. rewrite (basic_requests s w Hguard). reflexivity.
  - intros s w Hguard. rewrite (hardened_requests s w Hguard). reflexivity.
Qed.

Lemma request_body_is_text_and_image_witness :
  requests (calls (Basic.analyzeClaim
                     (Basic.onloadend Basic.initial (Some "data:image/png;base64,iVBORw0KGgo="))
                     server_silent)) =
  [ {| url := "http://localhost:8000/analyze";
       method := "POST";
       headers := [("Content-Type", "application/json")];
       body := JObj [("text", JStr "Image uploaded");
                     ("image_base64", JStr "data:image/png;base64,iVBORw0KGgo=")];
       signal := false |} ].
Proof.
  apply (proj1 request_body_is_text_and_image
           (Basic.onloadend Basic.initial (Some "data:image/png;base64,iVBORw0KGgo="))
           server_silent).
  reflexivity.
Defined.

(** ** The loading flag *)

(** The fetch of the hardened controller always settles; it is fulfilled
    only with the network's own answer. *)
Lemma abortable_cases {A : Type} (w : browser) (deadline : N) (p : promise A) :
  (exists t a, p = Fulfils t a /\ (t < deadline)%N /\ abortable w deadline p = Fulfils t a) \/
  (exists t e, p = Rejects t e /\ (t < deadline)%N /\ abortable w deadline p = Rejects t e) \/
  ((match p with
    | Fulfils t _ | Rejects t _ => (deadline <= t)%N
    | NeverSettles => True
    end) /\ abortable w deadline p = Rejects deadline (AbortError w)).
Proof.
  destruct p as [t a | t e | ]; simpl.
  - destruct (N.ltb_spec t deadline).
    + left. exists t, a. auto.
    + right. right. auto.
  - destruct (N.ltb_spec t deadline).
    + right. left. exists t, e. auto.
    + right. right. auto.
  - right. right. auto.
Qed.

(** C4. Past the guard, in both controllers, the first call of a run is
    [setLoading(true)]. A run that is not left suspended at a promise
    that never settles returns normally, whatever happened (a result, an
    error status, a rejected fetch, an unreadable body, the abort timer):
    its last call is [setLoading(false)], no other call touches the flag
    in between, and the flag is off in the resulting state. The basic run
    is not left suspended when the fetch and the body reading settle; the
    hardened run, whose fetch the timer settles, when the body reading
    settles. *)
Theorem loading_flag_set_then_cleared :
  (forall (s : Basic.state) (w : browser),
      Basic.refuses s = false ->
      hd_error (calls (Basic.analyzeClaim s w)) = Some (SetLoading true) /\
      (fst (Basic.analyzeClaim s w) <> Awaiting ->
       fst (Basic.analyzeClaim s w) = Returned tt /\
       (exists mid,
           calls (Basic.analyzeClaim s w) = SetLoading true :: mid ++ [SetLoading false] /\
           forallb (fun c => negb (is_set_loading c)) mid = true) /\
       Basic.loading (Basic.after s (calls (Basic.analyzeClaim s w))) = false) /\
      (settles (network w (Basic.request_of s)) = true ->
       body_settles w (Basic.request_of s) = true ->
       fst (Basic.analyzeClaim s w) <> Awaiting)) /\
  (forall (s : Hardened.state) (w : browser),
      Hardened.refuses s = false ->
      hd_error (calls (Hardened.analyzeClaim s w)) = Some (SetLoading true) /\
      (fst (Hardened.analyzeClaim s w) <> Awaiting ->
       fst (Hardened.analyzeClaim s w) = Returned tt /\
       (exists mid,
           calls (Hardened.analyzeClaim s w) =
           SetLoading true :: mid ++ [SetLoading false] /\
           forallb (fun c => negb (is_set_loading c)) mid = true) /\
       Hardened.loading (Hardened.after s (calls (Hardened.analyzeClaim s w))) = false) /\
      (body_settles w (Hardened.request_of s) = true ->
       fst (Hardened.analyzeClaim s w) <> Awaiting)).
Proof.
  split.
  - intros s w Hguard.
    rewrite (basic_run s w Hguard). cbv zeta. unfold body_settles.
    destruct (network w (Basic.request_of s)) as [t r | t e | ];
      [destruct (json_body r) as [t' data | t' e | ] | | ]; simpl;
      (split; [reflexivity | split; [ | intros; discriminate]]);
      intro Hdone; try (now elim Hdone);
      (split; [reflexivity | split; [ | reflexivity ]]).
    + exists [SetResult JNull; Fetch (Basic.request_of s); SetResult data]. now split.
    + exists [SetResult JNull; Fetch (Basic.request_of s);
              ConsoleError "Error analyzing claim:" e; Alert Basic.alert_text].
      now split.
    + exists [SetResult JNull; Fetch (Basic.request_of s);
              ConsoleError "Error analyzing claim:" e; Alert Basic.alert_text].
      now split.
  - intros s w Hguard.
    rewrite (hardened_run s w Hguard). cbv zeta. unfold body_settles.
    destruct (abortable_cases w Hardened.timeout_ms (network w (Hardened.request_of s)))
      as [(t & r & Hnet & _ & Hfetch) | [(t & e & Hnet & _ & Hfetch) | [_ Hfetch]]];
      rewrite Hfetch; try rewrite Hnet.
    + destruct (ok r); [destruct (json_body r) as [t' data | t' e | ] | ]; simpl;
        (split; [reflexivity | split; [ | intros; discriminate]]);
        intro Hdone; try (now elim Hdone);
        (split; [reflexivity | split; [ | reflexivity ]]).
      * exists (hardened_mid s ++ [ClearTimeout; SetResult data]). now split.
      * exists (hardened_mid s ++
                [ClearTimeout; ConsoleError "Error analyzing claim:" e;
                 SetError (Some (hardened_error_text e))]).
        now split.
      * exists (hardened_mid s ++
                [ClearTimeout;
                 ConsoleError "Error analyzing claim:"
                   (new_Error ("Server error: " ++ string_of_N (status r)));
                 SetError (Some Hardened.connect_text)]).
        now split.
    + simpl. split; [reflexivity | split; [ | intros; discriminate]].
      intros _. split; [reflexivity | split; [ | reflexivity ]].
      exists (hardened_mid s ++
              [ConsoleError "Error analyzing claim:" e;
               SetError (Some (hardened_error_text e))]).
      now split.
    + simpl. split; [reflexivity | split; [ | intros; discriminate]].
      intros _. split; [reflexivity | split; [ | reflexivity ]].
      exists (hardened_mid s ++
              [ConsoleError "Error analyzing claim:" (AbortError w);
               SetError (Some (hardened_error_text (AbortError w)))]).
      now split.
Qed.

Lemma loading_flag_set_then_cleared_witness :
  hd_error (calls (Hardened.analyzeClaim (hardened_typed lemon_water) server_silent))
  = Some (SetLoading true) /\
  Hardened.loading
    (Hardened.after (hardened_typed lemon_water)
       (calls (Hardened.analyzeClaim (hardened_typed lemon_water) server_silent)))
  = false.
Proof.
  destruct (proj2 loading_flag_set_then_cleared
              (hardened_typed lemon_water) server_silent eq_refl)
    as (Hfirst & Hdone & Hlive).
  split.
  - exact Hfirst.
  - apply Hdone, Hlive. reflexivity.
Defined.

(** ** Error statuses in the basic controller *)

(** C8. The basic controller never reads the status. When the answer has
    an error status and a body that parses, the run stores the parsed
    body with [setResult] and raises no alert; it is, call for call, the
    run obtained when the same body comes with status 200. *)
Theorem basic_stores_error_body_as_result
  (s : Basic.state) (w : browser) (t t' : N) (r : response) (data : json) :
  Basic.refuses s = false ->
  network w (Basic.request_of s) = Fulfils t r ->
  ok r = false ->
  json_body r = Fulfils t' data ->
  Basic.analyzeClaim s w =
  (Returned tt,
   [SetLoading true; SetResult JNull; Fetch (Basic.request_of s);
    SetResult data; SetLoading false]) /\
  Basic.result (Basic.after s (calls (Basic.analyzeClaim s w))) = data /\
  existsb is_alert (calls (Basic.analyzeClaim s w)) = false /\
  (forall (w200 : browser) (t200 : N),
      network w200 (Basic.request_of s) =
      Fulfils t200 {| status := 200; json_body := json_body r |} ->
      Basic.analyzeClaim s w200 = Basic.analyzeClaim s w).
Proof.
  intros Hguard Hnet _ Hbody.
  assert (Hrun : Basic.analyzeClaim s w =
                 (Returned tt,
                  [SetLoading true; SetResult JNull; Fetch (Basic.request_of s);
                   SetResult data; SetLoading false])).
  { rewrite (basic_run s w Hguard). cbv zeta. now rewrite Hnet, Hbody. }
  split; [exact Hrun | ]. rewrite Hrun. split; [reflexivity | split; [reflexivity | ]].
  intros w200 t200 Hnet200.
  rewrite (basic_run s w200 Hguard). cbv zeta. rewrite Hnet200. simpl.
  now rewrite Hbody.
Qed.

Lemma basic_stores_error_body_as_result_witness :
  Basic.result
    (Basic.after (basic_typed lemon_water)
       (calls (Basic.analyzeClaim (basic_typed lemon_water)
                 (server_answers 40 500 (JObj [("detail", JStr "Internal Server Error")])))))
  = JObj [("detail", JStr "Internal Server Error")].
Proof.
  refine (proj1 (proj2 (basic_stores_error_body_as_result
                          (basic_typed lemon_water)
                          (server_answers 40 500
                             (JObj [("detail", JStr "Internal Server Error")]))
                          40 41 _ _ eq_refl eq_refl eq_refl eq_refl))).
Defined.

(** ** Failures in the hardened controller *)

(** A rejected fetch: the [catch] block stores the text chosen by the
    name of the exception, and no result. *)
Lemma hardened_rejected_fetch (s : Hardened.state) (w : browser) (t : N) (e : js_error) :
  Hardened.refuses s = false ->
  abortable w Hardened.timeout_ms (network w (Hardened.request_of s)) = Rejects t e ->
  Hardened.analyzeClaim s w =
  (Returned tt,
   SetLoading true :: hardened_mid s ++
   [ConsoleError "Error analyzing claim:" e;
    SetError (Some (hardened_error_text e)); SetLoading false]).
Proof.
  intros Hguard Hfetch. rewrite (hardened_run s w Hguard). cbv zeta.
  now rewrite Hfetch.
Qed.

Lemma timed_out_aborts (w : browser) (rq : request) :
  timed_out w rq = true ->
  abortable w Hardened.timeout_ms (network w rq) =
  Rejects Hardened.timeout_ms (AbortError w).
Proof.
  unfold timed_out, abortable.
  destruct (network w rq) as [t r | t e | ]; intro Hlate; try reflexivity;
    apply N.leb_le in Hlate; apply N.ltb_ge in Hlate; now rewrite Hlate.
Qed.

(** An answer with an error status: the thrown [Error] carries the status
    in its message and is logged; the error cell gets the connectivity
    text. *)
Lemma hardened_error_status (s : Hardened.state) (w : browser) (t : N) (r : response) :
  Hardened.refuses s = false ->
  network w (Hardened.request_of s) = Fulfils t r ->
  (t < Hardened.timeout_ms)%N ->
  ok r = false ->
  Hardened.analyzeClaim s w =
  (Returned tt,
   SetLoading true :: hardened_mid s ++
   [ClearTimeout;
    ConsoleError "Error analyzing claim:"
      (new_Error ("Server error: " ++ string_of_N (status r)));
    SetError (Some Hardened.connect_text); SetLoading false]).
Proof.
  intros Hguard Hnet Hearly Hstatus. rewrite (hardened_run s w Hguard). cbv zeta.
  rewrite Hnet. unfold abortable. apply N.ltb_lt in Hearly. rewrite Hearly, Hstatus.
  reflexivity.
Qed.

(** The text the [catch] block stores, by the name of the exception. *)
Lemma error_text_by_name (e : js_error) :
  (name e <> "AbortError" -> hardened_error_text e = Hardened.connect_text) /\
  (name e = "AbortError" -> hardened_error_text e = Hardened.timeout_text).
Proof.
  unfold hardened_error_text. split; intro Hname.
  - apply String.eqb_neq in Hname. now rewrite Hname.
  - apply String.eqb_eq in Hname. now rewrite Hname.
Qed.

Ltac failed_state e :=
  cbn -[hardened_error_text];
  split; [reflexivity | split; [ | split; [ | reflexivity ]]];
  intro; apply f_equal;
  [ apply (proj1 (error_text_by_name e)) | apply (proj2 (error_text_by_name e)) ];
  assumption.

(** C3. Past the guard of the hardened controller: the two error texts
    differ; when the abort timer fires before the network settles the
    request (120000 ms), the run ends with the time-out text in the error
    cell; when the fetch is rejected earlier by the network, or when the
    answer came in time with a status from 200 to 299 and reading its
    body fails, the run ends with the connectivity text in the error
    cell unless the exception is named AbortError, in which case it is
    the time-out text. More generally, whatever exception a run catches
    (it logs each one), the run returns with the text chosen by the name
    of that exception in the error cell; a run that catches none stores
    no error text. In all the failing cases the result cell is empty. *)
Theorem hardened_failure_texts (s : Hardened.state) (w : browser) :
  Hardened.refuses s = false ->
  Hardened.timeout_text <> Hardened.connect_text /\
  (timed_out w (Hardened.request_of s) = true ->
   fst (Hardened.analyzeClaim s w) = Returned tt /\
   Hardened.error (Hardened.after s (calls (Hardened.analyzeClaim s w)))
   = Some Hardened.timeout_text /\
   Hardened.result (Hardened.after s (calls (Hardened.analyzeClaim s w))) = JNull) /\
  (forall (t : N) (e : js_error),
      network w (Hardened.request_of s) = Rejects t e ->
      (t < Hardened.timeout_ms)%N ->
      fst (Hardened.analyzeClaim s w) = Returned tt /\
      (name e <> "AbortError" ->
       Hardened.error (Hardened.after s (calls (Hardened.analyzeClaim s w)))
       = Some Hardened.connect_text) /\
      (name e = "AbortError" ->
       Hardened.error (Hardened.after s (calls (Hardened.analyzeClaim s w)))
       = Some Hardened.timeout_text) /\
      Hardened.result (Hardened.after s (calls (Hardened.analyzeClaim s w))) = JNull) /\
  (forall (t t' : N) (r : response) (e : js_error),
      network w (Hardened.request_of s) = Fulfils t r ->
      (t < Hardened.timeout_ms)%N ->
      (200 <= status r <= 299)%N ->
      json_body r = Rejects t' e ->
      fst (Hardened.analyzeClaim s w) = Returned tt /\
      (name e <> "AbortError" ->
       Hardened.error (Hardened.after s (calls (Hardened.analyzeClaim s w)))
       = Some Hardened.connect_text) /\
      (name e = "AbortError" ->
       Hardened.error (Hardened.after s (calls (Hardened.analyzeClaim s w)))
       = Some Hardened.timeout_text) /\
      Hardened.result (Hardened.after s (calls (Hardened.analyzeClaim s w))) = JNull) /\
  (forall e : js_error,
      In (ConsoleError "Error analyzing claim:" e) (calls (Hardened.analyzeClaim s w)) ->
      fst (Hardened.analyzeClaim s w) = Returned tt /\
      (name e <> "AbortError" ->
       Hardened.error (Hardened.after s (calls (Hardened.analyzeClaim s w)))
       = Some Hardened.connect_text) /\
      (name e = "AbortError" ->
       Hardened.error (Hardened.after s (calls (Hardened.analyzeClaim s w)))
       = Some Hardened.timeout_text) /\
      Hardened.result (Hardened.after s (calls (Hardened.analyzeClaim s w))) = JNull) /\
  (existsb is_console_error (calls (Hardened.analyzeClaim s w)) = false ->
   Hardened.error (Hardened.after s (calls (Hardened.analyzeClaim s w))) = None).
Proof.
  intro Hguard. split; [discriminate | split; [ | split; [ | split; [ | split ]]]].
  - intro Hlate.
    rewrite (hardened_rejected_fetch s w _ _ Hguard (timed_out_aborts w _ Hlate)).
    split; [reflexivity | split; reflexivity ].
  - intros t e Hnet Hearly.
    assert (Hfetch : abortable w Hardened.timeout_ms (network w (Hardened.request_of s))
                     = Rejects t e).
    { rewrite Hnet. unfold abortable. apply N.ltb_lt in Hearly. now rewrite Hearly. }
    rewrite (hardened_rejected_fetch s w t e Hguard Hfetch).
    split; [reflexivity | split; [ | split; [ | reflexivity ]]].
    + intro Hname. apply String.eqb_neq in Hname.
      cbn. unfold hardened_error_text. now rewrite Hname.
    + intro Hname. apply String.eqb_eq in Hname.
      cbn. unfold hardened_error_text. now rewrite Hname.
  - intros t t' r e Hnet Hearly [Hlow Hhigh] Hbody.
    rewrite (hardened_run s w Hguard). cbv zeta.
    rewrite Hnet. unfold abortable. apply N.ltb_lt in Hearly. rewrite Hearly.
    unfold ok. apply N.leb_le in Hlow, Hhigh. rewrite Hlow, Hhigh, Hbody.
    failed_state e.
  - intros e Hin. rewrite (hardened_run s w Hguard) in *. cbv zeta in *.
    destruct (abortable w Hardened.timeout_ms (network w (Hardened.request_of s)))
      as [t r | t e0 | ];
      [destruct (ok r); [destruct (json_body r) as [t' data | t' e0 | ] | ] | | ];
      cbn in Hin;
      repeat (destruct Hin as [Hin | Hin]; try discriminate Hin);
      try contradiction; injection Hin as Hcaught; subst e;
      match goal with
      | |- context [SetError (Some (hardened_error_text ?caught))] => failed_state caught
      end.
  - rewrite (hardened_run s w Hguard). cbv zeta.
    destruct (abortable w Hardened.timeout_ms (network w (Hardened.request_of s)))
      as [t r | t e0 | ];
      [destruct (ok r); [destruct (json_body r) as [t' data | t' e0 | ] | ] | | ];
      cbn; intro Hnone; try discriminate Hnone; reflexivity.
Qed.

Lemma hardened_failure_texts_witness :
  Hardened.error
    (Hardened.after (hardened_typed lemon_water)
       (calls (Hardened.analyzeClaim (hardened_typed lemon_water)
                 (server_answers 130000 200 lemon_water_result))))
  = Some Hardened.timeout_text /\
  Hardened.error
    (Hardened.after (hardened_typed lemon_water)
       (calls (Hardened.analyzeClaim (hardened_typed lemon_water) server_unreachable)))
  = Some Hardened.connect_text /\
  Hardened.error
    (Hardened.after (hardened_typed lemon_water)
       (calls (Hardened.analyzeClaim (hardened_typed lemon_water)
                 (server_answers_garbage 40 200))))
  = Some Hardened.connect_text.
Proof.
  split; [ | split ].
  - apply (proj1 (proj2 (hardened_failure_texts (hardened_typed lemon_water)
                           (server_answers 130000 200 lemon_water_result) eq_refl))).
    reflexivity.
  - refine (proj1 (proj2 (proj1 (proj2 (proj2 (hardened_failure_texts
                                                 (hardened_typed lemon_water)
                                                 server_unreachable eq_refl)))
                                 3%N _ eq_refl eq_refl)) _).
    discriminate.
  - refine (proj1 (proj2 (proj1 (proj2 (proj2 (proj2 (hardened_failure_texts
                                                        (hardened_typed lemon_water)
                                                        (server_answers_garbage 40 200)
                                                        eq_refl))))
                                 40%N 41%N
                                 {| status := 200;
                                    json_body :=
                                      Rejects 41
                                        {| name := "SyntaxError";
                                           message :=
                                             "Unexpected token < in JSON at position 0" |} |}
                                 _ eq_refl eq_refl _ eq_refl)) _).
    + split; discriminate.
    + discriminate.
Defined.

(** C1. Scenario 5 on the code: the server answers the claim with status
    500 after 40 ms. The run throws an [Error] whose message holds the
    status and logs it; the text put in the error cell is the
    connectivity text, in which "500" does not occur. The result cell
    is empty. *)
Theorem hardened_status_500_error_text :
  Hardened.analyzeClaim (hardened_typed lemon_water)
    (server_answers 40 500 (JObj [("detail", JStr "Internal Server Error")]))
  = (Returned tt,
     [SetLoading true; SetResult JNull; SetError None; NewAbortController;
      SetTimeout 120000; Fetch (Hardened.request_of (hardened_typed lemon_water));
      ClearTimeout;
      ConsoleError "Error analyzing claim:" (new_Error "Server error: 500");
      SetError (Some "Failed to connect to the server. Please ensure the backend is running.");
      SetLoading false]) /\
  Hardened.error
    (Hardened.after (hardened_typed lemon_water)
       (calls (Hardened.analyzeClaim (hardened_typed lemon_water)
                 (server_answers 40 500 (JObj [("detail", JStr "Internal Server Error")])))))
  = Some Hardened.connect_text /\
  includes Hardened.connect_text "500" = false /\
  Hardened.result
    (Hardened.after (hardened_typed lemon_water)
       (calls (Hardened.analyzeClaim (hardened_typed lemon_water)
                 (server_answers 40 500 (JObj [("detail", JStr "Internal Server Error")])))))
  = JNull.
Proof.
  split; [reflexivity | split; [reflexivity | split; reflexivity ]].
Qed.

(** ** Result and error exclude each other *)






(** ** The verdict panel *)

(** C7, as stated, fails on the panel of part_000 and part_001: the
    verdict "Misleading" holds neither "True" nor "False", and its class
    is danger, not warning. *)
Lemma misleading_verdict_is_danger :
  includes "Misleading" "True" = false /\
  includes "Misleading" "False" = false /\
  includes "Misleading" "Misleading" = true /\
  Panel.verdict_color "Misleading" = color_danger /\
  color_danger <> color_warning /\
  ~ classifies_by_literal Panel.verdict_color.
Proof.
  split; [reflexivity | split; [reflexivity | split; [reflexivity | ]]].
  split; [reflexivity | split; [discriminate | ]].
  intro Hclaim.
  destruct (Hclaim "Misleading") as (_ & _ & Hwarning).
  specialize (Hwarning eq_refl eq_refl eq_refl).
  discriminate Hwarning.
Qed.

(** C7, amended. The class is chosen by substring tests in a fixed order.
    A verdict holding "True" gets success in every panel; otherwise one
    holding "False" gets danger in every panel; otherwise one holding
    "Misleading" gets danger in the panel of part_000 and part_001, and
    warning in App.jsx, which does not test that literal; a verdict
    holding none of the three gets warning in every panel. The three
    classes differ, and the result of scenario 1, whose verdict is
    "False", is shown in danger. *)
Theorem verdict_class_by_ordered_literals (verdict : string) :
  (includes verdict "True" = true ->
   Basic.verdict_color verdict = color_success /\
   Panel.verdict_color verdict = color_success) /\
  (includes verdict "True" = false -> includes verdict "False" = true ->
   Basic.verdict_color verdict = color_danger /\
   Panel.verdict_color verdict = color_danger) /\
  (includes verdict "True" = false -> includes verdict "False" = false ->
   includes verdict "Misleading" = true ->
   Basic.verdict_color verdict = color_warning /\
   Panel.verdict_color verdict = color_danger) /\
  (includes verdict "True" = false -> includes verdict "False" = false ->
   includes verdict "Misleading" = false ->
   Basic.verdict_color verdict = color_warning /\
   Panel.verdict_color verdict = color_warning) /\
  (color_success <> color_danger /\ color_danger <> color_warning /\
   color_success <> color_warning) /\
  (Basic.panel_color lemon_water_result = Some color_danger /\
   Panel.panel_color lemon_water_result = Some color_danger).
Proof.
  unfold Basic.verdict_color, Panel.verdict_color.
  split; [ | split; [ | split; [ | split; [ | split ]]]].
  - intros ->. now split.
  - intros -> ->. now split.
  - intros -> -> ->. now split.
  - intros -> -> ->. now split.
  - repeat split; discriminate.
  - split; reflexivity.
Qed.

Lemma verdict_class_by_ordered_literals_witness :
  Basic.verdict_color "Misleading" = color_warning /\
  Panel.verdict_color "Misleading" = color_danger.
Proof.
  exact (proj1 (proj2 (proj2 (verdict_class_by_ordered_literals "Misleading")))
           eq_refl eq_refl eq_refl).
Defined.

(** C9. "True" is tested first in every panel: a verdict that holds
    "True" gets the success class in App.jsx, and the success class and
    the check-mark icon in the panel of part_000 and part_001, whatever
    else it holds. *)
Theorem true_is_tested_first (verdict : string) :
  includes verdict "True" = true ->
  Basic.verdict_color verdict = color_success /\
  Panel.verdict_color verdict = color_success /\
  Panel.verdict_icon verdict = "✅".
Proof.
  intro Htrue.
  unfold Basic.verdict_color, Panel.verdict_color, Panel.verdict_icon.
  rewrite Htrue. split; [reflexivity | split; reflexivity].
Qed.

Lemma true_is_tested_first_witness :
  includes "Not True, actually False" "False" = true /\
  Basic.verdict_color "Not True, actually False" = color_success /\
  Panel.verdict_color "Not True, actually False" = color_success /\
  Panel.verdict_icon "Not True, actually False" = "✅".
Proof.
  split.
  - reflexivity.
  - exact (true_is_tested_first "Not True, actually False" eq_refl).
Defined.

(** ** Scenario 1 *)

(** The claim about lemon water is answered with the verdict "False":
    the hardened run stores the answer and no error, and the panel shows
    it in danger with the warning icon. *)
Example scenario_lemon_water :
  Hardened.analyzeClaim (hardened_typed lemon_water)
    (server_answers 40 200 lemon_water_result)
  = (Returned tt,
     SetLoading true :: hardened_mid (hardened_typed lemon_water) ++
     [ClearTimeout; SetResult lemon_water_result; SetLoading false]) /\
  Hardened.error
    (Hardened.after (hardened_typed lemon_water)
       (calls (Hardened.analyzeClaim (hardened_typed lemon_water)
                 (server_answers 40 200 lemon_water_result))))
  = None /\
  verdict_of lemon_water_result = Some "False" /\
  Panel.panel_color lemon_water_result = Some "var(--color-danger)" /\
  option_map Panel.verdict_icon (verdict_of lemon_water_result) = Some "⚠️".
Proof.
  split; [reflexivity | split; [reflexivity | split; [reflexivity | ]]].
  split; reflexivity.
Qed.

(** * More of the component *)

(** ** Substring search *)

Lemma startsWith_spec (prefix s : string) :
  startsWith s prefix = true <-> exists rest, s = (prefix ++ rest)%string.
Proof.
  revert s. induction prefix as [ | p prefix IH]; intro s.
  - split; [intros _; now exists s | now destruct s].
  - destruct s as [ | c s]; simpl.
    + split; [discriminate | intros [rest Hrest]; discriminate Hrest].
    + rewrite andb_true_iff, Ascii.eqb_eq, IH. split.
      * intros [-> [rest ->]]. now exists rest.
      * intros [rest Hrest]. injection Hrest as -> ->. split; [reflexivity | now exists rest].
Qed.

Lemma includes_spec (s search : string) :
  includes s search = true <-> exists before after, s = (before ++ search ++ after)%string.
Proof.
  induction s as [ | c s IH].
  - change (includes "" search) with (startsWith "" search || false).
    rewrite orb_false_r, startsWith_spec. split.
    + intros [rest Hrest]. now exists "", rest.
    + intros [before [after Heq]]. destruct before; [ | discriminate Heq].
      now exists after.
  - change (includes (String c s) search)
      with (startsWith (String c s) search || includes s search).
    rewrite orb_true_iff, IH, startsWith_spec. split.
    + intros [[rest Hrest] | [before [after Heq]]].
      * now exists "", rest.
      * exists (String c before), after. simpl. now rewrite Heq.
    + intros [before [after Heq]]. destruct before as [ | c' before].
      * left. now exists after.
      * right. simpl in Heq. injection Heq as _ Heq. now exists before, after.
Qed.

Lemma includes_false_spec (s search : string) :
  includes s search = false <-> ~ exists before after, s = (before ++ search ++ after)%string.
Proof.
  rewrite <- includes_spec. destruct (includes s search); split; congruence.
Qed.

(** X1. The success class is given exactly to the verdicts in which the
    letters "True" occur somewhere, with this capitalisation, in App.jsx
    as in the richer panel; the richer panel gives danger exactly to the
    verdicts in which "True" does not occur and "False" or "Misleading"
    does. *)
Theorem classes_by_occurrence (verdict : string) :
  (Basic.verdict_color verdict = color_success <->
   exists before after, verdict = (before ++ "True" ++ after)%string) /\
  (Panel.verdict_color verdict = color_success <->
   exists before after, verdict = (before ++ "True" ++ after)%string) /\
  (Panel.verdict_color verdict = color_danger <->
   (~ exists before after, verdict = (before ++ "True" ++ after)%string) /\
   ((exists before after, verdict = (before ++ "False" ++ after)%string) \/
    (exists before after, verdict = (before ++ "Misleading" ++ after)%string))).
Proof.
  rewrite <- includes_false_spec, <- !includes_spec.
  unfold Basic.verdict_color, Panel.verdict_color.
  destruct (includes verdict "True"), (includes verdict "False"),
    (includes verdict "Misleading"); simpl;
    (split; [ | split ]); split; intro H;
    try reflexivity; try discriminate H; intuition discriminate.
Qed.

(** ** Border and icon agree *)

(** X2. In the panel of part_000 and part_001 the border colour and the icon
    are computed by two copies of the same conditional; they never
    disagree: the check mark goes with success, the warning sign with
    danger and the question mark with warning, for every verdict. *)
Theorem icon_agrees_with_color (verdict : string) :
  (Panel.verdict_color verdict = color_success <-> Panel.verdict_icon verdict = "✅") /\
  (Panel.verdict_color verdict = color_danger <-> Panel.verdict_icon verdict = "⚠️") /\
  (Panel.verdict_color verdict = color_warning <-> Panel.verdict_icon verdict = "❓").
Proof.
  unfold Panel.verdict_color, Panel.verdict_icon.
  destruct (includes verdict "True");
    [ | destruct (includes verdict "False" || includes verdict "Misleading") ];
    (split; [ | split ]); split; intro H; try reflexivity; discriminate H.
Qed.

(** ** Results the panel cannot render *)

Lemma card_without_verdict (result : json) :
  truthy result = true -> read_verdict result = None ->
  basic_card result = RenderThrows /\ panel_card result = RenderThrows.
Proof.
  intros Htruthy Hverdict. unfold basic_card, panel_card.
  now rewrite Htruthy, Hverdict.
Qed.

(** X3. Neither controller checks the shape of the body it stores. When the
    server answers, with any status for the basic controller and with a
    status from 200 to 299 in time for the hardened one, and the body is
    a JSON object without a member [verdict], the run ends normally with
    that object in the result cell, and the first expression of the
    result panel then throws a TypeError, in the plain panel as in the
    richer one. *)
Theorem stored_body_without_verdict_breaks_render
  (t t' : N) (r : response) (members : list (string * json)) :
  json_body r = Fulfils t' (JObj members) ->
  get_member "verdict" members = None ->
  (forall (s : Basic.state) (w : browser),
      Basic.refuses s = false ->
      network w (Basic.request_of s) = Fulfils t r ->
      fst (Basic.analyzeClaim s w) = Returned tt /\
      Basic.result (Basic.after s (calls (Basic.analyzeClaim s w))) = JObj members /\
      basic_card (Basic.result (Basic.after s (calls (Basic.analyzeClaim s w))))
      = RenderThrows /\
      panel_card (Basic.result (Basic.after s (calls (Basic.analyzeClaim s w))))
      = RenderThrows) /\
  (forall (s : Hardened.state) (w : browser),
      Hardened.refuses s = false ->
      network w (Hardened.request_of s) = Fulfils t r ->
      (t < Hardened.timeout_ms)%N ->
      (200 <= status r <= 299)%N ->
      fst (Hardened.analyzeClaim s w) = Returned tt /\
      Hardened.result (Hardened.after s (calls (Hardened.analyzeClaim s w)))
      = JObj members /\
      Hardened.error (Hardened.after s (calls (Hardened.analyzeClaim s w))) = None /\
      panel_card (Hardened.result (Hardened.after s (calls (Hardened.analyzeClaim s w))))
      = RenderThrows).
Proof.
  intros Hbody Hverdict.
  destruct (card_without_verdict (JObj members) eq_refl Hverdict) as [Hbasic Hpanel].
  split.
  - intros s w Hguard Hnet. rewrite (basic_run s w Hguard). cbv zeta.
    rewrite Hnet, Hbody. cbn -[basic_card panel_card]. now rewrite Hbasic, Hpanel.
  - intros s w Hguard Hnet Hearly [Hlow Hhigh].
    rewrite (hardened_run s w Hguard). cbv zeta.
    rewrite Hnet. unfold abortable. apply N.ltb_lt in Hearly. rewrite Hearly.
    unfold ok. apply N.leb_le in Hlow, Hhigh. rewrite Hlow, Hhigh, Hbody.
    cbn -[panel_card]. now rewrite Hpanel.
Qed.

Lemma stored_body_without_verdict_breaks_render_witness :
  basic_card
    (Basic.result
       (Basic.after (basic_typed lemon_water)
          (calls (Basic.analyzeClaim (basic_typed lemon_water)
                    (server_answers 40 500
                       (JObj [("detail", JStr "Internal Server Error")]))))))
  = RenderThrows.
Proof.
  refine (proj1 (proj2 (proj2 (proj1 (stored_body_without_verdict_breaks_render
                                        40 41
                                        {| status := 500;
                                           json_body :=
                                             Fulfils 41
                                               (JObj [("detail",
                                                       JStr "Internal Server Error")]) |}
                                        [("detail", JStr "Internal Server Error")]
                                        eq_refl eq_refl)
                                     (basic_typed lemon_water)
                                     (server_answers 40 500
                                        (JObj [("detail", JStr "Internal Server Error")]))
                                     eq_refl eq_refl)))).
Defined.

(** X4. For a result that is an object, the colour expression has a
    value when [verdict] is a string, and then it is the class of that
    string, or an array; it throws, in the plain panel as in the richer
    one, exactly when [verdict] is missing or is [null], a boolean, a
    number or an object. *)
Theorem card_of_object_result (members : list (string * json)) :
  (forall verdict,
      get_member "verdict" members = Some (JStr verdict) ->
      basic_card (JObj members) = Border (Basic.verdict_color verdict) /\
      panel_card (JObj members) = Border (Panel.verdict_color verdict)) /\
  (basic_card (JObj members) = RenderThrows <->
   panel_card (JObj members) = RenderThrows) /\
  (panel_card (JObj members) = RenderThrows <->
   (forall verdict, get_member "verdict" members <> Some (JStr verdict)) /\
   (forall items, get_member "verdict" members <> Some (JArr items))).
Proof.
  unfold basic_card, panel_card, Basic.verdict_color, Panel.verdict_color.
  cbn [truthy read_verdict].
  destruct (get_member "verdict" members) as [[ | b | q | v | items | fields] | ];
    cbn [call_includes].
  1-3, 6-7: split; [intros verdict H; discriminate H | ];
    split; [tauto | ]; split; [intros _; split; intros; discriminate | reflexivity].
  - split.
    + intros verdict H. injection H as <-.
      destruct (includes v "True"), (includes v "False"), (includes v "Misleading");
        split; reflexivity.
    + destruct (includes v "True"), (includes v "False"), (includes v "Misleading");
        (split; [split; intro H; discriminate H | ]);
        (split; [intro H; discriminate H | intros [H _]; now elim (H v)]).
  - split; [intros verdict H; discriminate H | ].
    repeat match goal with
           | |- context [existsb ?test items] => destruct (existsb test items)
           end;
      (split; [split; intro H; discriminate H | ]);
      (split; [intro H; discriminate H | intros [_ H]; now elim (H items)]).
Qed.

Lemma card_of_object_result_witness :
  basic_card lemon_water_result = Border color_danger /\
  panel_card lemon_water_result = Border color_danger.
Proof.
  exact (proj1 (card_of_object_result
                  [("verdict", JStr "False");
                   ("confidence", JNum (95 # 100));
                   ("explanation", JStr "No evidence...");
                   ("sources", JArr [JStr "WHO"])])
           "False" eq_refl).
Defined.

(** ** What the user sees after a hardened submission *)

Lemma panel_card_hidden (v : json) : panel_card v = NoCard <-> truthy v = false.
Proof.
  unfold panel_card. destruct (truthy v); split; intro H; try reflexivity;
    try discriminate H.
  destruct (call_includes (read_verdict v) "True") as [[ | ] | ];
    try discriminate H.
  destruct (call_includes (read_verdict v) "False") as [[ | ] | ];
    try discriminate H.
  destruct (call_includes (read_verdict v) "Misleading") as [[ | ] | ];
    discriminate H.
Qed.

Lemma error_text_shown (e : js_error) :
  truthy_string (hardened_error_text e) = true.
Proof.
  unfold hardened_error_text. now destruct (String.eqb (name e) "AbortError").
Qed.

(** X5. Past the guard of the hardened controller, in the state a run
    leaves: the error panel and the result panel are never both
    rendered. After a run that returned, the error panel is hidden
    exactly when the submission succeeded, that is when the server
    answered in time with a status from 200 to 299 and a body that
    parsed; otherwise it shows the time-out text or the connectivity
    text, and the result cell is empty. After a success the result cell
    holds the parsed body, and the guard [result &&] of the result slot
    stops, so that no result panel is rendered either, exactly when that
    body is falsy ([null], [false], zero or the empty string); what
    React makes of the falsy value itself is outside the statement. With
    a truthy body the colour expression of the panel is evaluated, and
    has a value or throws. *)
Theorem hardened_feedback (s : Hardened.state) (w : browser) :
  Hardened.refuses s = false ->
  (error_panel (Hardened.after s (calls (Hardened.analyzeClaim s w))) = None \/
   panel_card (Hardened.result (Hardened.after s (calls (Hardened.analyzeClaim s w))))
   = NoCard) /\
  (fst (Hardened.analyzeClaim s w) = Returned tt ->
   (error_panel (Hardened.after s (calls (Hardened.analyzeClaim s w))) = None <->
    exists t r t' data,
      network w (Hardened.request_of s) = Fulfils t r /\
      (t < Hardened.timeout_ms)%N /\
      (200 <= status r <= 299)%N /\
      json_body r = Fulfils t' data)) /\
  (fst (Hardened.analyzeClaim s w) = Returned tt ->
   error_panel (Hardened.after s (calls (Hardened.analyzeClaim s w))) <> None ->
   (error_panel (Hardened.after s (calls (Hardened.analyzeClaim s w)))
    = Some Hardened.timeout_text \/
    error_panel (Hardened.after s (calls (Hardened.analyzeClaim s w)))
    = Some Hardened.connect_text) /\
   Hardened.result (Hardened.after s (calls (Hardened.analyzeClaim s w))) = JNull) /\
  (forall (t t' : N) (r : response) (data : json),
      network w (Hardened.request_of s) = Fulfils t r ->
      (t < Hardened.timeout_ms)%N ->
      (200 <= status r <= 299)%N ->
      json_body r = Fulfils t' data ->
      fst (Hardened.analyzeClaim s w) = Returned tt /\
      error_panel (Hardened.after s (calls (Hardened.analyzeClaim s w))) = None /\
      Hardened.result (Hardened.after s (calls (Hardened.analyzeClaim s w))) = data /\
      (panel_card data = NoCard <-> truthy data = false) /\
      (truthy data = true ->
       (exists color, panel_card data = Border color) \/ panel_card data = RenderThrows)).
Proof.
  intro Hguard. rewrite (hardened_run s w Hguard). cbv zeta.
  assert (Hshown : forall e,
             (if truthy_string (hardened_error_text e)
              then Some (hardened_error_text e) else None)
             = Some (hardened_error_text e))
    by (intro e; now rewrite (error_text_shown e)).
  assert (Htext : forall e,
             Some (hardened_error_text e) = Some Hardened.timeout_text \/
             Some (hardened_error_text e) = Some Hardened.connect_text).
  { intro e. unfold hardened_error_text.
    destruct (String.eqb (name e) "AbortError"); auto. }
  destruct (abortable_cases w Hardened.timeout_ms (network w (Hardened.request_of s)))
    as [(t & r & Hnet & Hearly & Hfetch) | [(t & e & Hnet & Hearly & Hfetch) | [Hlate Hfetch]]];
    rewrite Hfetch.
  - assert (Hbounds : ok r = true <-> (200 <= status r <= 299)%N).
    { unfold ok. rewrite andb_true_iff, !N.leb_le. reflexivity. }
    destruct (ok r) eqn:Hok; [destruct (json_body r) as [t' data | t' e | ] eqn:Hbody | ].
    + cbn -[panel_card]. split; [now left | ]. split; [ | split ].
      * intros _. split; [intros _ | reflexivity].
        exists t, r, t', data. split; [exact Hnet | split; [exact Hearly | ]].
        split; [now apply Hbounds | exact Hbody].
      * intros _ Hsome. now elim Hsome.
      * intros t0 t0' r0 data0 Hnet0 _ _ Hbody0.
        rewrite Hnet in Hnet0. injection Hnet0 as _ <-.
        rewrite Hbody in Hbody0. injection Hbody0 as _ <-.
        split; [reflexivity | split; [reflexivity | split; [reflexivity | ]]].
        split; [apply panel_card_hidden | ].
        intro Htruthy. destruct (panel_card data) as [ | color | ] eqn:Hcard.
        -- apply panel_card_hidden in Hcard. congruence.
        -- left. now exists color.
        -- now right.
    + cbn -[hardened_error_text]. unfold error_panel. cbn -[hardened_error_text].
      rewrite (Hshown e). split; [now right | ]. split; [ | split ].
      * intros _. split; [intro Hnone; discriminate Hnone | ].
        intros (t0 & r0 & t0' & data0 & Hnet0 & _ & _ & Hbody0).
        rewrite Hnet in Hnet0. injection Hnet0 as _ <-.
        rewrite Hbody in Hbody0. discriminate Hbody0.
      * intros _ _. split; [apply Htext | reflexivity].
      * intros t0 t0' r0 data0 Hnet0 _ _ Hbody0.
        rewrite Hnet in Hnet0. injection Hnet0 as _ <-.
        rewrite Hbody in Hbody0. discriminate Hbody0.
    + cbn. split; [now left | ]. split; [ | split ].
      * intro Hret. discriminate Hret.
      * intro Hret. discriminate Hret.
      * intros t0 t0' r0 data0 Hnet0 _ _ Hbody0.
        rewrite Hnet in Hnet0. injection Hnet0 as _ <-.
        rewrite Hbody in Hbody0. discriminate Hbody0.
    + cbn. split; [now right | ]. split; [ | split ].
      * intros _. split; [intro Hnone; discriminate Hnone | ].
        intros (t0 & r0 & t0' & data0 & Hnet0 & _ & Hrange & _).
        rewrite Hnet in Hnet0. injection Hnet0 as _ <-.
        apply Hbounds in Hrange. discriminate Hrange.
      * intros _ _. split; [now right | reflexivity].
      * intros t0 t0' r0 data0 Hnet0 _ Hrange _.
        rewrite Hnet in Hnet0. injection Hnet0 as _ <-.
        apply Hbounds in Hrange. discriminate Hrange.
  - cbn -[hardened_error_text]. unfold error_panel. cbn -[hardened_error_text].
    rewrite (Hshown e). split; [now right | ]. split; [ | split ].
    + intros _. split; [intro Hnone; discriminate Hnone | ].
      intros (t0 & r0 & t0' & data0 & Hnet0 & _).
      rewrite Hnet in Hnet0. discriminate Hnet0.
    + intros _ _. split; [apply Htext | reflexivity].
    + intros t0 t0' r0 data0 Hnet0 _ _ _.
      rewrite Hnet in Hnet0. discriminate Hnet0.
  - cbn. split; [now right | ]. split; [ | split ].
    + intros _. split; [intro Hnone; discriminate Hnone | ].
      intros (t0 & r0 & t0' & data0 & Hnet0 & Hearly0 & _).
      rewrite Hnet0 in Hlate. apply N.lt_nge in Hearly0. now elim Hearly0.
    + intros _ _. split; [now left | reflexivity].
    + intros t0 t0' r0 data0 Hnet0 Hearly0 _ _.
      rewrite Hnet0 in Hlate. apply N.lt_nge in Hearly0. now elim Hearly0.
Qed.

Lemma hardened_feedback_witness :
  error_panel
    (Hardened.after (hardened_typed lemon_water)
       (calls (Hardened.analyzeClaim (hardened_typed lemon_water)
                 (server_answers 40 200 (JNum (0 # 1)))))) = None /\
  Hardened.result
    (Hardened.after (hardened_typed lemon_water)
       (calls (Hardened.analyzeClaim (hardened_typed lemon_water)
                 (server_answers 40 200 (JNum (0 # 1))))))
  = JNum (0 # 1) /\
  panel_card (JNum (0 # 1)) = NoCard.
Proof.
  destruct (proj2 (proj2 (proj2 (hardened_feedback (hardened_typed lemon_water)
                                   (server_answers 40 200 (JNum (0 # 1))) eq_refl)))
              40%N 41%N
              {| status := 200; json_body := Fulfils 41 (JNum (0 # 1)) |}
              (JNum (0 # 1)) eq_refl eq_refl)
    as (_ & Herror & Hresult & Hguard & _).
  - split; discriminate.
  - reflexivity.
  - split; [exact Herror | split; [exact Hresult | ]].
    apply Hguard. reflexivity.
Defined.

(** ** Submissions that never end *)

(** X6. Past the guard, a basic run stays suspended exactly when the fetch
    never settles or the body of the answer never finishes reading; a
    hardened run exactly when the answer came in time with a status from
    200 to 299 and its body never finishes reading (the abort timer was
    cleared by then). A suspended run leaves the flag on, so the button
    stays disabled under the label "Analyzing..."; a run that returned
    leaves the button enabled under "Verify Claim". *)
Theorem suspended_run_locks_button :
  (forall (s : Basic.state) (w : browser),
      Basic.refuses s = false ->
      (fst (Basic.analyzeClaim s w) = Awaiting <->
       network w (Basic.request_of s) = NeverSettles \/
       exists t r, network w (Basic.request_of s) = Fulfils t r /\
                   json_body r = NeverSettles) /\
      (fst (Basic.analyzeClaim s w) = Awaiting ->
       button_disabled
         (Basic.loading (Basic.after s (calls (Basic.analyzeClaim s w)))) = true /\
       button_label
         (Basic.loading (Basic.after s (calls (Basic.analyzeClaim s w))))
       = "Analyzing...") /\
      (fst (Basic.analyzeClaim s w) = Returned tt ->
       button_disabled
         (Basic.loading (Basic.after s (calls (Basic.analyzeClaim s w)))) = false /\
       button_label
         (Basic.loading (Basic.after s (calls (Basic.analyzeClaim s w))))
       = "Verify Claim")) /\
  (forall (s : Hardened.state) (w : browser),
      Hardened.refuses s = false ->
      (fst (Hardened.analyzeClaim s w) = Awaiting <->
       exists t r, network w (Hardened.request_of s) = Fulfils t r /\
                   (t < Hardened.timeout_ms)%N /\
                   (200 <= status r <= 299)%N /\
                   json_body r = NeverSettles) /\
      (fst (Hardened.analyzeClaim s w) = Awaiting ->
       button_disabled
         (Hardened.loading (Hardened.after s (calls (Hardened.analyzeClaim s w))))
       = true /\
       button_label
         (Hardened.loading (Hardened.after s (calls (Hardened.analyzeClaim s w))))
       = "Analyzing...") /\
      (fst (Hardened.analyzeClaim s w) = Returned tt ->
       button_disabled
         (Hardened.loading (Hardened.after s (calls (Hardened.analyzeClaim s w))))
       = false /\
       button_label
         (Hardened.loading (Hardened.after s (calls (Hardened.analyzeClaim s w))))
       = "Verify Claim")).
Proof.
  split.
  - intros s w Hguard. rewrite (basic_run s w Hguard). cbv zeta.
    destruct (network w (Basic.request_of s)) as [t r | t e | ] eqn:Hnet;
      [destruct (json_body r) as [t' data | t' e | ] eqn:Hbody | | ]; cbn;
      (split; [split | split; intro H; (discriminate H || (split; reflexivity))]).
    + discriminate.
    + intros [H | (t0 & r0 & H & Hstall)]; [discriminate H | ].
      injection H as _ <-. rewrite Hbody in Hstall. discriminate Hstall.
    + discriminate.
    + intros [H | (t0 & r0 & H & Hstall)]; [discriminate H | ].
      injection H as _ <-. rewrite Hbody in Hstall. discriminate Hstall.
    + intros _. right. now exists t, r.
    + reflexivity.
    + discriminate.
    + intros [H | (t0 & r0 & H & _)]; discriminate H.
    + intros _. now left.
    + reflexivity.
  - intros s w Hguard. rewrite (hardened_run s w Hguard). cbv zeta.
    destruct (abortable_cases w Hardened.timeout_ms (network w (Hardened.request_of s)))
      as [(t & r & Hnet & Hearly & Hfetch) | [(t & e & Hnet & Hearly & Hfetch) | [Hlate Hfetch]]];
      rewrite Hfetch.
    + destruct (ok r) eqn:Hok; [destruct (json_body r) as [t' data | t' e | ] eqn:Hbody | ];
        cbn;
        (split; [split | split; intro H; (discriminate H || (split; reflexivity))]).
      * discriminate.
      * intros (t0 & r0 & H & _ & _ & Hstall). rewrite Hnet in H.
        injection H as _ <-. rewrite Hbody in Hstall. discriminate Hstall.
      * discriminate.
      * intros (t0 & r0 & H & _ & _ & Hstall). rewrite Hnet in H.
        injection H as _ <-. rewrite Hbody in Hstall. discriminate Hstall.
      * intros _. exists t, r. unfold ok in Hok. apply andb_true_iff in Hok.
        destruct Hok as [Hlow Hhigh]. apply N.leb_le in Hlow, Hhigh. auto.
      * reflexivity.
      * discriminate.
      * intros (t0 & r0 & H & _ & [Hlow Hhigh] & _). rewrite Hnet in H.
        injection H as _ <-. unfold ok in Hok. apply N.leb_le in Hlow, Hhigh.
        rewrite Hlow, Hhigh in Hok. discriminate Hok.
    + cbn. split; [split | split; intro H; (discriminate H || (split; reflexivity))].
      * discriminate.
      * intros (t0 & r0 & H & _). rewrite Hnet in H. discriminate H.
    + cbn. split; [split | split; intro H; (discriminate H || (split; reflexivity))].
      * discriminate.
      * intros (t0 & r0 & H & Hearly & _). rewrite H in Hlate.
        apply N.lt_nge in Hearly. now elim Hearly.
Qed.

Lemma suspended_run_locks_button_witness :
  button_label
    (Hardened.loading
       (Hardened.after (hardened_typed lemon_water)
          (calls (Hardened.analyzeClaim (hardened_typed lemon_water)
                    (server_stalls_body 40 200)))))
  = "Analyzing...".
Proof.
  destruct (proj2 suspended_run_locks_button (hardened_typed lemon_water)
              (server_stalls_body 40 200) eq_refl) as (Hiff & Hlock & _).
  apply Hlock, Hiff.
  exists 40%N, {| status := 200; json_body := NeverSettles |}.
  split; [reflexivity | split; [reflexivity | split; [ | reflexivity]]].
  split; discriminate.
Defined.

(** ** Error statuses in the hardened controller *)

(** X7. On an answer that comes in time with a status outside 200-299 the
    hardened controller never reads the body: two such answers with the
    same status give the same run, whatever their bodies do (parse, fail
    to parse, never end). The run returns, logs an [Error] whose message
    is "Server error: " followed by the status in decimal, stores the
    connectivity text, and stores no result besides the initial reset. *)
Theorem hardened_error_status_ignores_body
  (s : Hardened.state) (w1 w2 : browser) (t1 t2 : N) (r1 r2 : response) :
  Hardened.refuses s = false ->
  network w1 (Hardened.request_of s) = Fulfils t1 r1 ->
  network w2 (Hardened.request_of s) = Fulfils t2 r2 ->
  (t1 < Hardened.timeout_ms)%N -> (t2 < Hardened.timeout_ms)%N ->
  status r1 = status r2 ->
  (status r1 < 200 \/ 299 < status r1)%N ->
  Hardened.analyzeClaim s w1 = Hardened.analyzeClaim s w2 /\
  fst (Hardened.analyzeClaim s w1) = Returned tt /\
  filter is_console_error (calls (Hardened.analyzeClaim s w1)) =
  [ConsoleError "Error analyzing claim:"
     {| name := "Error";
        message := ("Server error: " ++ string_of_N (status r1))%string |}] /\
  error_sets (calls (Hardened.analyzeClaim s w1)) = [None; Some Hardened.connect_text] /\
  result_sets (calls (Hardened.analyzeClaim s w1)) = [JNull].
Proof.
  intros Hguard Hnet1 Hnet2 Hearly1 Hearly2 Hsame Hstatus.
  assert (Hok1 : ok r1 = false).
  { unfold ok. apply andb_false_iff. destruct Hstatus as [Hlow | Hhigh].
    - left. now apply N.leb_gt.
    - right. now apply N.leb_gt. }
  assert (Hok2 : ok r2 = false) by (unfold ok in *; now rewrite <- Hsame).
  rewrite (hardened_error_status s w1 t1 r1 Hguard Hnet1 Hearly1 Hok1).
  rewrite (hardened_error_status s w2 t2 r2 Hguard Hnet2 Hearly2 Hok2).
  rewrite Hsame. repeat split.
Qed.

Lemma hardened_error_status_ignores_body_witness :
  Hardened.analyzeClaim (hardened_typed lemon_water) (server_stalls_body 40 404)
  = Hardened.analyzeClaim (hardened_typed lemon_water)
      (server_answers 900 404 (JObj [("detail", JStr "Not Found")])).
Proof.
  refine (proj1 (hardened_error_status_ignores_body
                   (hardened_typed lemon_water)
                   (server_stalls_body 40 404)
                   (server_answers 900 404 (JObj [("detail", JStr "Not Found")]))
                   40 900
                   {| status := 404; json_body := NeverSettles |}
                   {| status := 404;
                      json_body := Fulfils 901 (JObj [("detail", JStr "Not Found")]) |}
                   eq_refl eq_refl eq_refl eq_refl eq_refl eq_refl _)).
  right. reflexivity.
Defined.

(** ** The abort timer *)

(** X8. Past the guard, the hardened run arms one timer of 120000 ms, after
    creating the controller and before the fetch; [clearTimeout] is
    called exactly when the network fulfils the fetch before the timer
    fires. After a fetch the network rejected, the run ends with the
    timer still armed. *)
Theorem timer_cleared_iff_fetch_fulfilled (s : Hardened.state) (w : browser) :
  Hardened.refuses s = false ->
  firstn 6 (calls (Hardened.analyzeClaim s w)) =
  [SetLoading true; SetResult JNull; SetError None; NewAbortController;
   SetTimeout 120000; Fetch (Hardened.request_of s)] /\
  filter (fun c => match c with SetTimeout _ => true | _ => false end)
    (calls (Hardened.analyzeClaim s w)) = [SetTimeout 120000] /\
  (existsb is_clear_timeout (calls (Hardened.analyzeClaim s w)) = true <->
   exists t r, network w (Hardened.request_of s) = Fulfils t r /\
               (t < Hardened.timeout_ms)%N).
Proof.
  intro Hguard. rewrite (hardened_run s w Hguard). cbv zeta.
  destruct (abortable_cases w Hardened.timeout_ms (network w (Hardened.request_of s)))
    as [(t & r & Hnet & Hearly & Hfetch) | [(t & e & Hnet & Hearly & Hfetch) | [Hlate Hfetch]]];
    rewrite Hfetch.
  - destruct (ok r); [destruct (json_body r) as [t' data | t' e | ] | ]; cbn;
      (split; [reflexivity | split; [reflexivity | ]]);
      (split; [intros _; now exists t, r | reflexivity]).
  - cbn. split; [reflexivity | split; [reflexivity | ]]. split; [discriminate | ].
    intros (t0 & r0 & H & _). rewrite Hnet in H. discriminate H.
  - cbn. split; [reflexivity | split; [reflexivity | ]]. split; [discriminate | ].
    intros (t0 & r0 & H & Hearly). rewrite H in Hlate.
    apply N.lt_nge in Hearly. now elim Hearly.
Qed.

Lemma timer_cleared_iff_fetch_fulfilled_witness :
  existsb is_clear_timeout
    (calls (Hardened.analyzeClaim (hardened_typed lemon_water)
              (server_answers 40 500 JNull)))
  = true.
Proof.
  apply (proj2 (proj2 (timer_cleared_iff_fetch_fulfilled
                         (hardened_typed lemon_water)
                         (server_answers 40 500 JNull) eq_refl))).
  exists 40%N, {| status := 500; json_body := Fulfils 41 JNull |}.
  split; reflexivity.
Defined.

(** ** The alert of the basic controller *)



(** ** Choosing a file, then submitting *)


Lemma basic_requests_explicit (s : Basic.state) (w : browser) :
  Basic.refuses s = false ->
  requests (calls (Basic.analyzeClaim s w)) =
  [upload_request (Basic.claim s) (Basic.imageBase64 s)].
Proof.
  intro Hguard. now rewrite (basic_requests s w Hguard).
Qed.

(** X10. The file input of the basic controller, then a submission. With no
    file chosen nothing changes. With a file: if the claim was empty in
    the render where the file was chosen, the request carries the text
    "Image uploaded", also when a text was typed while the file was being
    read, and also when the read failed and the image is [null];
    otherwise it carries the current text, and it is dispatched unless
    that text is empty and the read gave no image, in which case the run
    makes no call. *)
Theorem upload_then_submit {File : Type}
  (render now : Basic.state) (file : File) (others : list File)
  (read : File -> option string) (w : browser) :
  onFileChange render now [] read = now /\
  (Basic.claim render = "" ->
   requests (calls (Basic.analyzeClaim
                      (onFileChange render now (file :: others) read) w))
   = [upload_request "Image uploaded" (read file)]) /\
  (Basic.claim render <> "" ->
   Basic.claim now <> "" \/ truthy_nullable (read file) = true ->
   requests (calls (Basic.analyzeClaim
                      (onFileChange render now (file :: others) read) w))
   = [upload_request (Basic.claim now) (read file)]) /\
  (Basic.claim render <> "" ->
   Basic.claim now = "" -> truthy_nullable (read file) = false ->
   calls (Basic.analyzeClaim (onFileChange render now (file :: others) read) w) = []).
Proof.
  split; [reflexivity | split; [ | split ]].
  - intro Hempty. rewrite basic_requests_explicit.
    + cbn. now rewrite Hempty.
    + unfold Basic.refuses. cbn. now rewrite Hempty.
  - intros Hrender Hsome. apply truthy_string_true in Hrender.
    rewrite basic_requests_explicit.
    + cbn. now rewrite Hrender.
    + unfold Basic.refuses. cbn. rewrite Hrender. cbn.
      destruct Hsome as [Hnow | Himage].
      * apply truthy_string_true in Hnow. now rewrite Hnow.
      * rewrite Himage. apply andb_false_r.
  - intros Hrender Hnow Himage. apply truthy_string_true in Hrender.
    unfold Basic.analyzeClaim, Basic.refuses. cbn.
    now rewrite Hrender, Hnow, Himage.
Qed.

Lemma upload_then_submit_witness :
  requests (calls (Basic.analyzeClaim
                     (onFileChange Basic.initial (basic_typed lemon_water)
                        ["photo.png"] (fun _ => None))
                     server_unreachable))
  = [upload_request "Image uploaded" None].
Proof.
  exact (proj1 (proj2 (upload_then_submit Basic.initial (basic_typed lemon_water)
                         "photo.png" [] (fun _ => None) server_unreachable))
           eq_refl).
Defined.

(** ** Submitting again *)

Lemma hardened_after_keeps_claim (cs : list call) (s : Hardened.state) :
  Hardened.claim (Hardened.after s cs) = Hardened.claim s.
Proof.
  revert s. induction cs as [ | c cs IH]; intro s; [reflexivity | ].
  unfold Hardened.after in *. simpl. rewrite IH. now destruct c.
Qed.

Lemma basic_after_keeps_inputs (cs : list call) (s : Basic.state) :
  Basic.claim (Basic.after s cs) = Basic.claim s /\
  Basic.imageBase64 (Basic.after s cs) = Basic.imageBase64 s.
Proof.
  revert s. induction cs as [ | c cs IH]; intro s; [now split | ].
  unfold Basic.after in *. simpl. destruct (IH (Basic.reduce s c)) as [-> ->].
  now destruct c.
Qed.

Lemma hardened_run_starts_by_clearing (s : Hardened.state) (w : browser) :
  Hardened.refuses s = false ->
  firstn 3 (calls (Hardened.analyzeClaim s w)) =
  [SetLoading true; SetResult JNull; SetError None].
Proof.
  intro Hguard. rewrite (hardened_run s w Hguard). cbv zeta.
  destruct (abortable w Hardened.timeout_ms (network w (Hardened.request_of s)))
    as [t r | t e | ];
    [destruct (ok r); [destruct (json_body r) | ] | | ]; reflexivity.
Qed.

Lemma basic_run_starts_by_clearing (s : Basic.state) (w : browser) :
  Basic.refuses s = false ->
  firstn 2 (calls (Basic.analyzeClaim s w)) = [SetLoading true; SetResult JNull].
Proof.
  intro Hguard. rewrite (basic_run s w Hguard). cbv zeta.
  destruct (network w (Basic.request_of s)) as [t r | t e | ];
    [destruct (json_body r) | | ]; reflexivity.
Qed.

(** X11. A submission that passed the guard can be repeated from the
    state its run left, in both controllers: the claim and the image are
    as they were, so the guard passes again and the same request is
    dispatched once more, whatever the first answer was; and the second
    run starts by wiping what the first one stored, before it dispatches
    anything: after its first calls the result (and, in the hardened
    controller, the error) is empty and the flag is on. *)
Theorem resubmission_repeats_request :
  (forall (s : Hardened.state) (w w2 : browser),
      Hardened.refuses s = false ->
      let s' := Hardened.after s (calls (Hardened.analyzeClaim s w)) in
      let wiped := Hardened.after s' (firstn 3 (calls (Hardened.analyzeClaim s' w2))) in
      requests (calls (Hardened.analyzeClaim s' w2)) =
      requests (calls (Hardened.analyzeClaim s w)) /\
      requests (firstn 3 (calls (Hardened.analyzeClaim s' w2))) = [] /\
      Hardened.result wiped = JNull /\ Hardened.error wiped = None /\
      Hardened.loading wiped = true) /\
  (forall (s : Basic.state) (w w2 : browser),
      Basic.refuses s = false ->
      let s' := Basic.after s (calls (Basic.analyzeClaim s w)) in
      let wiped := Basic.after s' (firstn 2 (calls (Basic.analyzeClaim s' w2))) in
      requests (calls (Basic.analyzeClaim s' w2)) =
      requests (calls (Basic.analyzeClaim s w)) /\
      requests (firstn 2 (calls (Basic.analyzeClaim s' w2))) = [] /\
      Basic.result wiped = JNull /\ Basic.loading wiped = true).
Proof.
  split.
  - intros s w w2 Hguard s' wiped.
    assert (Hclaim : Hardened.claim s' = Hardened.claim s)
      by apply hardened_after_keeps_claim.
    assert (Hguard' : Hardened.refuses s' = false)
      by (unfold Hardened.refuses in *; now rewrite Hclaim).
    subst wiped. rewrite (hardened_run_starts_by_clearing s' w2 Hguard').
    rewrite (hardened_requests s' w2 Hguard'), (hardened_requests s w Hguard).
    unfold Hardened.request_of, Hardened.payload. rewrite Hclaim.
    repeat split.
  - intros s w w2 Hguard s' wiped.
    destruct (basic_after_keeps_inputs (calls (Basic.analyzeClaim s w)) s)
      as [Hclaim Himage].
    fold s' in Hclaim, Himage.
    assert (Hguard' : Basic.refuses s' = false)
      by (unfold Basic.refuses in *; now rewrite Hclaim, Himage).
    subst wiped. rewrite (basic_run_starts_by_clearing s' w2 Hguard').
    rewrite (basic_requests s' w2 Hguard'), (basic_requests s w Hguard).
    unfold Basic.request_of, Basic.payload. rewrite Hclaim, Himage.
    repeat split.
Qed.

Lemma resubmission_repeats_request_witness :
  requests
    (calls (Hardened.analyzeClaim
              (Hardened.after (hardened_typed lemon_water)
                 (calls (Hardened.analyzeClaim (hardened_typed lemon_water)
                           server_unreachable)))
              (server_answers 40 200 lemon_water_result)))
  = requests (calls (Hardened.analyzeClaim (hardened_typed lemon_water)
                       server_unreachable)).
Proof.
  exact (proj1 (proj1 resubmission_repeats_request (hardened_typed lemon_water)
                  server_unreachable (server_answers 40 200 lemon_water_result)
                  eq_refl)).
Defined.
